(** * work-boots: the ready handshake and message relay of [WorkBoots] and [Socks]

    A shallow embedding of the two classes of [src/index.js] (the
    cross-platform version, lines 22-327): [WorkBoots], the caller-side
    object, and [Socks], the worker-side object, together with the
    in-process bridge that links them when no background worker exists.

    JavaScript values are a small inductive type, the two objects are
    records held in one store (they reference each other after adoption),
    methods are computations in a state-and-exception monad over that store,
    and every call that leaves the two classes (an application callback, the
    worker handle, the worker's own [self]) is appended to a trace. *)

From Stdlib Require Import List String ZArith Bool Lia.
Import ListNotations.
Local Open Scope string_scope.
Local Open Scope list_scope.
Set Warnings "-register-all".

(** ** JavaScript values *)

Inductive value : Type :=
| VUndefined
| VNull
| VBool (b : bool)
| VNum (z : Z)
| VStr (s : string)
| VObj (fields : list (string * value))
| VArr (items : list value).

(** [{ data }] *)
Definition envelope (data : value) : value := VObj [("data", data)].

(** The literal the worker side announces itself with. *)
Definition socks_loaded : value := VStr "socks loaded".

Fixpoint lookup (k : string) (fs : list (string * value)) : option value :=
  match fs with
  | [] => None
  | (k', v) :: fs' => if String.eqb k k' then Some v else lookup k fs'
  end.

(** [k in v]: defined on objects and arrays only; [None] is the TypeError
    JavaScript raises on a primitive, on [null] and on [undefined]. *)
Definition js_in (k : string) (v : value) : option bool :=
  match v with
  | VObj fs => Some (match lookup k fs with Some _ => true | None => false end)
  | VArr _ => Some false
  | _ => None
  end.

(** [typeof v === 'object'] (true of [null] as well). *)
Definition typeof_object (v : value) : bool :=
  match v with
  | VObj _ | VArr _ | VNull => true
  | _ => false
  end.

(** [!!v] *)
Definition truthy (v : value) : bool :=
  match v with
  | VUndefined | VNull => false
  | VBool b => b
  | VNum z => negb (Z.eqb z 0)
  | VStr s => negb (String.eqb s "")
  | VObj _ | VArr _ => true
  end.

(** [v?.data]: [undefined] on [null]/[undefined] and on anything without
    the property. *)
Definition opt_data (v : value) : value :=
  match v with
  | VObj fs => match lookup "data" fs with Some d => d | None => VUndefined end
  | _ => VUndefined
  end.

(** [v === 'socks loaded'] *)
Definition is_socks_loaded (v : value) : bool :=
  match v with
  | VStr s => String.eqb s "socks loaded"
  | _ => false
  end.

(** ** Environment ([isBrowser], [isNode], [typeof Worker !== 'undefined']) *)

Record Env : Type := {
  isBrowser : bool;
  isNode : bool;
  hasWorker : bool
}.

(** ** Callbacks, errors, promises *)

(** The message callback slot of a [WorkBoots] holds either the internal
    readiness listener or a function of the application. *)
Inductive callback : Type :=
| VelcroAndLaces
| AppCallback (id : nat).

Inductive error : Type :=
| TypeError (msg : string)
| Error (msg : string).

Definition no_socksFile : error := Error "no socksFile defined!".
Definition no_callback : error :=
  Error "onMessageLocal should not be called without onMessageCallback defined".
Definition not_a_function : error :=
  TypeError "this.onMessageCallback is not a function".

Inductive promise : Type :=
| Pending
| Resolved
| Rejected (e : error).

(** ** The worker handle owned by [WorkBoots] and the host owned by [Socks] *)

(** What the factory returned: which members are functions, and the
    subscriptions made on it so far. *)
Record Handle : Type := {
  h_postMessage : bool;
  h_on : bool;
  h_terminate : bool;
  h_onmessage : option callback;
  h_listeners : list callback
}.

(** The [self] (or [parentPort]) given to [new Socks(self)]. *)
Record Host : Type := {
  host_on : bool;
  host_terminate : bool;
  host_onmessage : option nat;
  host_listeners : list nat
}.

(** [this.socks]: the loaded module's [Socks], or the object literal the
    constructor builds when the import fails. *)
Inductive socksRef : Type :=
| LoadedSocks
| MockSocks.

(** ** The two objects *)

(** Fields of a [WorkBoots].  [supportsWorker] and [isReady] are only ever
    tested for truthiness, so [undefined] is [false]; [receivedBeforeReady]
    is read through [.length], so [undefined] is kept apart as [None].
    [boots_of_mock] is the field [boots] that the stand-in's [enterBoots]
    (an arrow function, so [this] is the [WorkBoots]) sets on the
    [WorkBoots] itself; [loading] is not a field of the object: it records
    that the continuation of [loadSocksFile] has been registered and has not
    run yet. *)
Record WorkBoots : Type := {
  readyPromise : promise;
  supportsWorker : bool;
  receivedBeforeReady : option (list (list value));
  isReady : bool;
  worker : option Handle;
  socks : option socksRef;
  onMessageCallback : option callback;
  boots_of_mock : bool;
  loading : bool
}.

(** Fields of a [Socks]; a queued post is the triple
    [[data, origin, transfer]]. *)
Record Socks : Type := {
  self : option Host;
  postsBeforeReady : list (value * value * list value);
  s_isReady : bool;
  sentReadyMessage : bool;
  boots : bool;
  s_onMessageCallback : option nat;
  terminateCallback : option nat
}.

(** ** Trace of the calls that leave the two classes *)

Inductive event : Type :=
| BootsCallback (id : nat) (args : list value)
| SocksCallback (id : nat) (args : list value)
| WorkerPostMessage (args : list value)
| WorkerTerminate
| SelfPostMessage (args : list value)
| SelfTerminate
| TerminateCallback (id : nat)
| ToBoots (args : list value)
| ToSocks (args : list value).

Record World : Type := {
  wb : WorkBoots;
  sk : Socks;
  trace : list event
}.

(** ** State and exception monad *)

Inductive result (A : Type) : Type :=
| Ok (a : A)
| Throw (e : error).
Arguments Ok {A} a.
Arguments Throw {A} e.

Definition M (A : Type) : Type := World -> result A * World.

Definition ret {A} (a : A) : M A := fun w => (Ok a, w).

Definition bind {A B} (m : M A) (k : A -> M B) : M B :=
  fun w => match m w with
           | (Ok a, w') => k a w'
           | (Throw e, w') => (Throw e, w')
           end.

Definition throw {A} (e : error) : M A := fun w => (Throw e, w).

Notation "x <- m ;; k" := (bind m (fun x => k))
  (at level 61, m at next level, right associativity).
Notation "m ;; k" := (bind m (fun _ => k))
  (at level 61, right associativity).

Definition get : M World := fun w => (Ok w, w).
Definition put (w : World) : M unit := fun _ => (Ok tt, w).

(** The state with one more call recorded. *)
Definition add_event (e : event) (w : World) : World :=
  {| wb := wb w; sk := sk w; trace := trace w ++ [e] |}.

Definition emit (e : event) : M unit := fun w => (Ok tt, add_event e w).

Definition modify_wb (f : WorkBoots -> WorkBoots) : M unit :=
  fun w => (Ok tt, {| wb := f (wb w); sk := sk w; trace := trace w |}).

Definition modify_sk (f : Socks -> Socks) : M unit :=
  fun w => (Ok tt, {| wb := wb w; sk := f (sk w); trace := trace w |}).

(** [l.forEach(f)]: an exception leaves the loop. *)
Fixpoint forEach {A} (f : A -> M unit) (l : list A) : M unit :=
  match l with
  | [] => ret tt
  | x :: l' => f x ;; forEach f l'
  end.

(** [try { m } catch (e) { h e }] *)
Definition try_catch {A} (m : M A) (h : error -> M A) : M A :=
  fun w => match m w with
           | (Ok a, w') => (Ok a, w')
           | (Throw e, w') => h e w'
           end.

(** ** Field updates *)

Definition set_readyPromise (p : promise) (b : WorkBoots) : WorkBoots :=
  {| readyPromise := p; supportsWorker := supportsWorker b;
     receivedBeforeReady := receivedBeforeReady b; isReady := isReady b;
     worker := worker b; socks := socks b;
     onMessageCallback := onMessageCallback b;
     boots_of_mock := boots_of_mock b; loading := loading b |}.

Definition set_supportsWorker (x : bool) (b : WorkBoots) : WorkBoots :=
  {| readyPromise := readyPromise b; supportsWorker := x;
     receivedBeforeReady := receivedBeforeReady b; isReady := isReady b;
     worker := worker b; socks := socks b;
     onMessageCallback := onMessageCallback b;
     boots_of_mock := boots_of_mock b; loading := loading b |}.

Definition set_receivedBeforeReady (q : option (list (list value)))
  (b : WorkBoots) : WorkBoots :=
  {| readyPromise := readyPromise b; supportsWorker := supportsWorker b;
     receivedBeforeReady := q; isReady := isReady b;
     worker := worker b; socks := socks b;
     onMessageCallback := onMessageCallback b;
     boots_of_mock := boots_of_mock b; loading := loading b |}.

Definition set_isReady (x : bool) (b : WorkBoots) : WorkBoots :=
  {| readyPromise := readyPromise b; supportsWorker := supportsWorker b;
     receivedBeforeReady := receivedBeforeReady b; isReady := x;
     worker := worker b; socks := socks b;
     onMessageCallback := onMessageCallback b;
     boots_of_mock := boots_of_mock b; loading := loading b |}.

Definition set_worker (h : option Handle) (b : WorkBoots) : WorkBoots :=
  {| readyPromise := readyPromise b; supportsWorker := supportsWorker b;
     receivedBeforeReady := receivedBeforeReady b; isReady := isReady b;
     worker := h; socks := socks b;
     onMessageCallback := onMessageCallback b;
     boots_of_mock := boots_of_mock b; loading := loading b |}.

Definition set_socks (r : option socksRef) (b : WorkBoots) : WorkBoots :=
  {| readyPromise := readyPromise b; supportsWorker := supportsWorker b;
     receivedBeforeReady := receivedBeforeReady b; isReady := isReady b;
     worker := worker b; socks := r;
     onMessageCallback := onMessageCallback b;
     boots_of_mock := boots_of_mock b; loading := loading b |}.

Definition set_onMessageCallback (c : option callback) (b : WorkBoots)
  : WorkBoots :=
  {| readyPromise := readyPromise b; supportsWorker := supportsWorker b;
     receivedBeforeReady := receivedBeforeReady b; isReady := isReady b;
     worker := worker b; socks := socks b;
     onMessageCallback := c;
     boots_of_mock := boots_of_mock b; loading := loading b |}.

Definition set_boots_of_mock (x : bool) (b : WorkBoots) : WorkBoots :=
  {| readyPromise := readyPromise b; supportsWorker := supportsWorker b;
     receivedBeforeReady := receivedBeforeReady b; isReady := isReady b;
     worker := worker b; socks := socks b;
     onMessageCallback := onMessageCallback b;
     boots_of_mock := x; loading := loading b |}.

Definition set_loading (x : bool) (b : WorkBoots) : WorkBoots :=
  {| readyPromise := readyPromise b; supportsWorker := supportsWorker b;
     receivedBeforeReady := receivedBeforeReady b; isReady := isReady b;
     worker := worker b; socks := socks b;
     onMessageCallback := onMessageCallback b;
     boots_of_mock := boots_of_mock b; loading := x |}.

Definition set_self (h : option Host) (s : Socks) : Socks :=
  {| self := h; postsBeforeReady := postsBeforeReady s;
     s_isReady := s_isReady s; sentReadyMessage := sentReadyMessage s;
     boots := boots s; s_onMessageCallback := s_onMessageCallback s;
     terminateCallback := terminateCallback s |}.

Definition set_postsBeforeReady (q : list (value * value * list value))
  (s : Socks) : Socks :=
  {| self := self s; postsBeforeReady := q;
     s_isReady := s_isReady s; sentReadyMessage := sentReadyMessage s;
     boots := boots s; s_onMessageCallback := s_onMessageCallback s;
     terminateCallback := terminateCallback s |}.

Definition set_s_isReady (x : bool) (s : Socks) : Socks :=
  {| self := self s; postsBeforeReady := postsBeforeReady s;
     s_isReady := x; sentReadyMessage := sentReadyMessage s;
     boots := boots s; s_onMessageCallback := s_onMessageCallback s;
     terminateCallback := terminateCallback s |}.

Definition set_sentReadyMessage (x : bool) (s : Socks) : Socks :=
  {| self := self s; postsBeforeReady := postsBeforeReady s;
     s_isReady := s_isReady s; sentReadyMessage := x;
     boots := boots s; s_onMessageCallback := s_onMessageCallback s;
     terminateCallback := terminateCallback s |}.

Definition set_boots (x : bool) (s : Socks) : Socks :=
  {| self := self s; postsBeforeReady := postsBeforeReady s;
     s_isReady := s_isReady s; sentReadyMessage := sentReadyMessage s;
     boots := x; s_onMessageCallback := s_onMessageCallback s;
     terminateCallback := terminateCallback s |}.

Definition set_s_onMessageCallback (c : option nat) (s : Socks) : Socks :=
  {| self := self s; postsBeforeReady := postsBeforeReady s;
     s_isReady := s_isReady s; sentReadyMessage := sentReadyMessage s;
     boots := boots s; s_onMessageCallback := c;
     terminateCallback := terminateCallback s |}.

Definition set_terminateCallback (c : option nat) (s : Socks) : Socks :=
  {| self := self s; postsBeforeReady := postsBeforeReady s;
     s_isReady := s_isReady s; sentReadyMessage := sentReadyMessage s;
     boots := boots s; s_onMessageCallback := s_onMessageCallback s;
     terminateCallback := c |}.

Definition set_h_onmessage (c : option callback) (h : Handle) : Handle :=
  {| h_postMessage := h_postMessage h; h_on := h_on h;
     h_terminate := h_terminate h; h_onmessage := c;
     h_listeners := h_listeners h |}.

Definition add_h_listener (c : callback) (h : Handle) : Handle :=
  {| h_postMessage := h_postMessage h; h_on := h_on h;
     h_terminate := h_terminate h; h_onmessage := h_onmessage h;
     h_listeners := h_listeners h ++ [c] |}.

Definition set_host_onmessage (c : option nat) (h : Host) : Host :=
  {| host_on := host_on h; host_terminate := host_terminate h;
     host_onmessage := c; host_listeners := host_listeners h |}.

Definition add_host_listener (c : nat) (h : Host) : Host :=
  {| host_on := host_on h; host_terminate := host_terminate h;
     host_onmessage := host_onmessage h;
     host_listeners := host_listeners h ++ [c] |}.

Definition is_some {A} (o : option A) : bool :=
  match o with Some _ => true | None => false end.

(** [transfer.length > 0 ? transfer : undefined] *)
Definition transfer_or_undefined (transfer : list value) : value :=
  match transfer with
  | [] => VUndefined
  | _ :: _ => VArr transfer
  end.

(** ** The methods

    Application callbacks are opaque: invoking one is recorded in the trace
    with its arguments, and it is taken to return normally without calling
    back into the two objects.  [console.log] is dropped. *)

Section Protocol.

Variable env : Env.

(** *** [WorkBoots] *)

(** [resolve(this)]: settles the readiness promise unless already settled. *)
Definition resolve : M unit :=
  modify_wb (fun b => match readyPromise b with
                      | Pending => set_readyPromise Resolved b
                      | _ => b
                      end).

(** The listener built in the constructor:
    [(message, ...rest) => message?.data === 'socks loaded' ? resolve(this)
                           : this.receivedBeforeReady.push([message, ...rest])] *)
Definition velcroAndLaces (args : list value) : M unit :=
  if is_socks_loaded (opt_data (nth 0 args VUndefined)) then resolve
  else
    w <- get ;;
    match receivedBeforeReady (wb w) with
    | Some q => modify_wb (set_receivedBeforeReady (Some (q ++ [args])))
    | None => throw (TypeError "Cannot read properties of undefined (reading 'push')")
    end.

(** Calling whatever sits in a [WorkBoots] callback slot. *)
Definition call_callback (cb : callback) (args : list value) : M unit :=
  match cb with
  | VelcroAndLaces => velcroAndLaces args
  | AppCallback id => emit (BootsCallback id args)
  end.

(** The subscription [onMessage] makes on the worker handle. *)
Definition subscribe (cb : callback) (h : Handle) : Handle :=
  if isBrowser env then set_h_onmessage (Some cb) h
  else if isNode env then
    if h_on h then add_h_listener cb h else set_h_onmessage (Some cb) h
  else h.

Definition WorkBoots_onMessage (cb : callback) : M unit :=
  modify_wb (set_onMessageCallback (Some cb)) ;;
  modify_wb (fun b => match worker b with
                      | Some h => set_worker (Some (subscribe cb h)) b
                      | None => b
                      end) ;;
  w <- get ;;
  match receivedBeforeReady (wb w) with
  | None => throw (TypeError "Cannot read properties of undefined (reading 'length')")
  | Some q =>
      forEach (fun m =>
                 w' <- get ;;
                 match onMessageCallback (wb w') with
                 | Some c => call_callback c m
                 | None => ret tt
                 end) q
  end.

Definition WorkBoots_onMessageLocal (data origin : value)
  (transfer : list value) : M unit :=
  w <- get ;;
  match onMessageCallback (wb w) with
  | Some cb => call_callback cb [envelope data]
  | None => throw no_callback
  end.

(** *** [Socks] *)

Definition isWorkerSupported (s : Socks) : bool :=
  if isBrowser env then hasWorker env && is_some (self s)
  else if isNode env then is_some (self s)
  else false.

(** [this.boots.onMessageLocal(...args)] as seen from the [Socks]. *)
Definition boots_onMessageLocal (args : list value) (data origin : value)
  (transfer : list value) : M unit :=
  w <- get ;;
  if boots (sk w) then
    emit (ToBoots args) ;; WorkBoots_onMessageLocal data origin transfer
  else throw (TypeError "Cannot read properties of undefined (reading 'onMessageLocal')").

(** [(typeof data === 'object' && 'data' in data) ? data : { data }]; on
    [null] the [in] operator throws. *)
Definition message_of (data : value) : result value :=
  if typeof_object data then
    match js_in "data" data with
    | Some true => Ok data
    | Some false => Ok (envelope data)
    | None => Throw (TypeError "Cannot use 'in' operator to search for 'data'")
    end
  else Ok (envelope data).

Definition socks_message (data : value) : M value :=
  fun w => (message_of data, w).

(** What the host is called with, in an environment with worker support. *)
Definition self_call (data origin : value) (transfer : list value) : event :=
  if isBrowser env then
    SelfPostMessage (filter truthy [data; origin; transfer_or_undefined transfer])
  else SelfPostMessage [data; VArr transfer].

(** The call on the host, per environment:
    [this.self.postMessage(...[data, origin, transfer.length > 0 ? transfer
    : undefined].filter(arg => !!arg))] or
    [this.self.postMessage(data, transfer)]. *)
Definition self_postMessage (data origin : value) (transfer : list value)
  : M unit :=
  if isBrowser env then
    emit (SelfPostMessage
            (filter truthy [data; origin; transfer_or_undefined transfer]))
  else if isNode env then
    emit (SelfPostMessage [data; VArr transfer])
  else ret tt.

(** [this.postsBeforeReady.push([data, origin, transfer])] *)
Definition push_post (data origin : value) (transfer : list value)
  (s : Socks) : Socks :=
  set_postsBeforeReady (postsBeforeReady s ++ [(data, origin, transfer)]) s.

Definition Socks_postMessage (data origin : value) (transfer : list value)
  : M unit :=
  w <- get ;;
  if negb (s_isReady (sk w)) then
    modify_sk (push_post data origin transfer)
  else
    message <- socks_message data ;;
    if isWorkerSupported (sk w) then
      self_postMessage data origin transfer
    else
      boots_onMessageLocal [message; origin; VArr transfer]
                           message origin transfer.

Definition Socks_processReadyMessages : M unit :=
  w <- get ;;
  if sentReadyMessage (sk w) then
    forEach (fun '(data, origin, transfer) =>
               Socks_postMessage data origin transfer)
            (postsBeforeReady (sk w)) ;;
    modify_sk (set_postsBeforeReady [])
  else ret tt.

Definition Socks_ready : M unit :=
  w <- get ;;
  (if isWorkerSupported (sk w) then
     Socks_postMessage socks_loaded VUndefined [] ;;
     modify_sk (set_sentReadyMessage true)
   else if boots (sk w) then
     boots_onMessageLocal [socks_loaded] socks_loaded VUndefined [] ;;
     modify_sk (set_sentReadyMessage true)
   else ret tt) ;;
  modify_sk (set_s_isReady true) ;;
  Socks_processReadyMessages.

Definition Socks_enterBoots : M unit :=
  modify_sk (set_boots true) ;;
  w <- get ;;
  (if s_isReady (sk w) && negb (sentReadyMessage (sk w))
   then Socks_ready else ret tt) ;;
  w' <- get ;;
  match self (sk w') with
  | Some h =>
      match host_onmessage h with
      | Some cb => modify_sk (set_s_onMessageCallback (Some cb))
      | None => ret tt
      end
  | None => ret tt
  end ;;
  modify_sk (set_self None).

(** The subscription [onMessage] makes on the host. *)
Definition host_subscribe (cb : nat) (h : Host) : Host :=
  if isBrowser env then set_host_onmessage (Some cb) h
  else if isNode env then
    if host_on h then add_host_listener cb h else set_host_onmessage (Some cb) h
  else h.

Definition Socks_onMessage (cb : nat) : M unit :=
  w <- get ;;
  if isWorkerSupported (sk w) then
    modify_sk (fun s => match self s with
                        | Some h => set_self (Some (host_subscribe cb h)) s
                        | None => s
                        end)
  else modify_sk (set_s_onMessageCallback (Some cb)).

Definition Socks_onMessageLocal (data origin : value) (transfer : list value)
  : M unit :=
  w <- get ;;
  match s_onMessageCallback (sk w) with
  | Some cb => emit (SocksCallback cb [data])
  | None => throw no_callback
  end.

Definition Socks_terminate : M unit :=
  w <- get ;;
  match terminateCallback (sk w) with
  | Some cb => emit (TerminateCallback cb)
  | None => ret tt
  end ;;
  match self (sk w) with
  | Some h => if host_terminate h then emit SelfTerminate else ret tt
  | None => ret tt
  end.

Definition Socks_onTerminate (cb : nat) : M unit :=
  modify_sk (set_terminateCallback (Some cb)).

(** [new Socks(self)] *)
Definition Socks_constructor (h : option Host) : Socks :=
  {| self := h; postsBeforeReady := []; s_isReady := false;
     sentReadyMessage := false; boots := false;
     s_onMessageCallback := None; terminateCallback := None |}.

(** *** [WorkBoots], continued: the calls into [this.socks] *)

(** [this.socks.onMessageLocal(message, transfer)]: the loaded [Socks], or
    the object literal of the constructor's [catch], whose [onMessageLocal]
    is [(message) => this.onMessageCallback &&
    this.onMessageCallback({ data: message.data })]. *)
Definition socks_onMessageLocal (r : socksRef) (message : value)
  (transfer : list value) : M unit :=
  emit (ToSocks [message; VArr transfer]) ;;
  match r with
  | LoadedSocks => Socks_onMessageLocal message (VArr transfer) []
  | MockSocks =>
      w <- get ;;
      match onMessageCallback (wb w) with
      | Some cb => call_callback cb [envelope (opt_data message)]
      | None => ret tt
      end
  end.

(** The call on the worker handle, per environment:
    [this.worker.postMessage(...[data, transfer.length > 0 ? transfer :
    undefined].filter(arg => !!arg))] or
    [this.worker.postMessage(data, transfer)]. *)
Definition worker_postMessage (data : value) (transfer : list value)
  : M unit :=
  if isBrowser env then
    emit (WorkerPostMessage
            (filter truthy [data; transfer_or_undefined transfer]))
  else if isNode env then
    emit (WorkerPostMessage [data; VArr transfer])
  else ret tt.

Definition default_origin (origin : value) : value :=
  match origin with VUndefined => VNull | _ => origin end.

Definition WorkBoots_postMessage (data origin0 : value)
  (transfer : list value) : M unit :=
  let origin := default_origin origin0 in
  w <- get ;;
  if negb (isReady (wb w)) then
    match onMessageCallback (wb w) with
    | Some cb => call_callback cb [data; origin; VArr transfer]
    | None => throw not_a_function
    end
  else
    match js_in "data" data with
    | None => throw (TypeError "Cannot use 'in' operator to search for 'data'")
    | Some has_data =>
        let message := if has_data then data else envelope data in
        match supportsWorker (wb w), worker (wb w) with
        | true, Some h =>
            if h_postMessage h then worker_postMessage data transfer
            else
              match socks (wb w) with
              | Some r => socks_onMessageLocal r message transfer
              | None => ret tt
              end
        | _, _ =>
            match socks (wb w) with
            | Some r => socks_onMessageLocal r message transfer
            | None => ret tt
            end
        end
    end.

Definition WorkBoots_terminate : M unit :=
  w <- get ;;
  let via_socks :=
    match socks (wb w) with
    | Some LoadedSocks => Socks_terminate
    | Some MockSocks => ret tt
    | None => ret tt
    end in
  match supportsWorker (wb w), worker (wb w) with
  | true, Some h =>
      if h_terminate h then
        if isBrowser env then emit WorkerTerminate
        else if isNode env then emit WorkerTerminate
        else ret tt
      else via_socks
  | _, _ => via_socks
  end.

Definition WorkBoots_ready : M promise :=
  w <- get ;; ret (readyPromise (wb w)).

(** What calling [instantiateWorker(socksFile)] does. *)
Inductive factory : Type :=
| FactoryThrows
| FactoryReturns (h : option Handle).

Definition detectWorkerSupport : bool :=
  if isBrowser env then hasWorker env
  else if isNode env then true
  else false.

(** A freshly allocated object: every field [undefined]. *)
Definition blank : WorkBoots :=
  {| readyPromise := Pending; supportsWorker := false;
     receivedBeforeReady := None; isReady := false; worker := None;
     socks := None; onMessageCallback := None; boots_of_mock := false;
     loading := false |}.

(** [new WorkBoots({ socksFile, instantiateWorker })], up to the point where
    the constructor returns; [loading] records that the continuation of
    [loadSocksFile(socksFile)] is still to run.  The source closes the
    [else if (this.worker)] branch with one brace too many; it is read as
    the [if]/[else if] it is indented as. *)
Definition WorkBoots_constructor (socksFile : option string)
  (instantiateWorker : factory) : M unit :=
  modify_wb (fun _ => blank) ;;
  match socksFile with
  | None => modify_wb (set_readyPromise (Rejected no_socksFile))
  | Some _ =>
      modify_wb (set_supportsWorker detectWorkerSupport) ;;
      modify_wb (set_receivedBeforeReady (Some [])) ;;
      modify_wb (set_isReady false) ;;
      modify_wb (set_readyPromise Pending) ;;
      WorkBoots_onMessage VelcroAndLaces ;;
      w <- get ;;
      (if supportsWorker (wb w) then
         match instantiateWorker with
         | FactoryReturns h =>
             modify_wb (set_worker h) ;;
             modify_wb (set_supportsWorker true) ;;
             modify_wb (set_isReady true)
         | FactoryThrows =>
             modify_wb (set_worker None) ;;
             modify_wb (set_supportsWorker false)
         end
       else ret tt) ;;
      w' <- get ;;
      if negb (supportsWorker (wb w')) || negb (is_some (worker (wb w'))) then
        modify_wb (set_supportsWorker false) ;;
        modify_wb (set_loading true)
      else resolve
  end.

(** How [loadSocksFile(socksFile)] settles: with a module (which may or may
    not export [socks]), or with a rejection. *)
Inductive loaded : Type :=
| ModuleLoaded (exports_socks : bool)
| ImportFailed.

(** The [.catch] handler: binds the object literal. *)
Definition mock_socks : M unit :=
  modify_wb (set_socks (Some MockSocks)) ;;
  modify_wb (set_boots_of_mock true) ;;
  modify_wb (set_isReady true) ;;
  resolve.

(** The continuation [.then(({ socks }) => ...).catch((error) => ...)]. *)
Definition loadSocksFile_settled (r : loaded) : M unit :=
  modify_wb (set_loading false) ;;
  match r with
  | ModuleLoaded exports_socks =>
      try_catch
        (modify_wb (set_socks (if exports_socks then Some LoadedSocks else None)) ;;
         (if exports_socks then Socks_enterBoots
          else throw (TypeError "Cannot read properties of undefined (reading 'enterBoots')")) ;;
         modify_wb (set_isReady true) ;;
         resolve)
        (fun _ => mock_socks)
  | ImportFailed => mock_socks
  end.

(** *** Sequences of calls

    The methods an application, a loaded module or the bridge can invoke on
    the two objects, and the state a sequence of such calls leads to (a call
    that throws leaves its partial effects, as in JavaScript). *)

Inductive boots_op : Type :=
| BPostMessage (data origin : value) (transfer : list value)
| BOnMessage (cb : nat)
| BOnMessageLocal (data origin : value) (transfer : list value)
| BTerminate.

Inductive socks_op : Type :=
| SReady
| SProcessReadyMessages
| SEnterBoots
| SPostMessage (data origin : value) (transfer : list value)
| SOnMessage (cb : nat)
| SOnMessageLocal (data origin : value) (transfer : list value)
| STerminate
| SOnTerminate (cb : nat).

Inductive op : Type :=
| OnBoots (o : boots_op)
| OnSocks (o : socks_op).

Definition do_boots_op (o : boots_op) : M unit :=
  match o with
  | BPostMessage data origin transfer => WorkBoots_postMessage data origin transfer
  | BOnMessage cb => WorkBoots_onMessage (AppCallback cb)
  | BOnMessageLocal data origin transfer => WorkBoots_onMessageLocal data origin transfer
  | BTerminate => WorkBoots_terminate
  end.

Definition do_socks_op (o : socks_op) : M unit :=
  match o with
  | SReady => Socks_ready
  | SProcessReadyMessages => Socks_processReadyMessages
  | SEnterBoots => Socks_enterBoots
  | SPostMessage data origin transfer => Socks_postMessage data origin transfer
  | SOnMessage cb => Socks_onMessage cb
  | SOnMessageLocal data origin transfer => Socks_onMessageLocal data origin transfer
  | STerminate => Socks_terminate
  | SOnTerminate cb => Socks_onTerminate cb
  end.

Definition do_op (o : op) : M unit :=
  match o with
  | OnBoots b => do_boots_op b
  | OnSocks s => do_socks_op s
  end.

Definition run_ops (ops : list op) (w : World) : World :=
  fold_left (fun w o => snd (do_op o w)) ops w.

(** The calls a queued post makes once it is replayed: on the host, or
    across the bridge into a [WorkBoots] whose callback is [id]. *)
Definition replay_remote (p : value * value * list value) : event :=
  let '(data, origin, transfer) := p in self_call data origin transfer.

Definition replay_bridge (id : nat) (p : value * value * list value)
  : list event :=
  let '(data, origin, transfer) := p in
  match message_of data with
  | Ok m => [ToBoots [m; origin; VArr transfer]; BootsCallback id [envelope m]]
  | Throw _ => []
  end.

(** A post whose replay does not throw. *)
Definition postable (p : value * value * list value) : Prop :=
  exists m, message_of (fst (fst p)) = Ok m.

(** The two field updates of [enterBoots]: [this.boots = boots] at its
    start; at its end the capture of [this.self.onmessage] and
    [this.self = undefined]. *)
Definition adopt (w : World) : World :=
  {| wb := wb w; sk := set_boots true (sk w); trace := trace w |}.

Definition capture (s : Socks) : Socks :=
  match self s with
  | Some h =>
      match host_onmessage h with
      | Some cb => set_s_onMessageCallback (Some cb) s
      | None => s
      end
  | None => s
  end.

Definition release (w : World) : World :=
  {| wb := wb w; sk := set_self None (capture (sk w)); trace := trace w |}.

(** A [Socks] that is ready without having announced itself has no worker
    to talk to: [ready()] only leaves [sentReadyMessage] unset on the
    unsupported, unadopted branch. *)
Definition Socks_wf (s : Socks) : Prop :=
  s_isReady s = true -> sentReadyMessage s = false ->
  isWorkerSupported s = false.

End Protocol.

(** ** Relations between the state before and after a call *)

(** [m] relates every state it starts in to the state it leaves. *)
Definition keeps (R : World -> World -> Prop) {A} (m : M A) : Prop :=
  forall w, R w (snd (m w)).

(** The trace only grows. *)
Definition extends (w w' : World) : Prop :=
  exists evs, trace w' = trace w ++ evs.

(** A promise settles at most once, and only by [resolve]. *)
Definition promise_le (p p' : promise) : Prop :=
  p' = p \/ (p = Pending /\ p' = Resolved).

Definition promise_grows (w w' : World) : Prop :=
  promise_le (readyPromise (wb w)) (readyPromise (wb w')).

(** What a call made from the [Socks] side can do to the [WorkBoots]: settle
    the promise and append to [receivedBeforeReady], nothing else. *)
Definition boots_frame (w w' : World) : Prop :=
  promise_le (readyPromise (wb w)) (readyPromise (wb w')) /\
  supportsWorker (wb w') = supportsWorker (wb w) /\
  isReady (wb w') = isReady (wb w) /\
  worker (wb w') = worker (wb w) /\
  socks (wb w') = socks (wb w) /\
  onMessageCallback (wb w') = onMessageCallback (wb w) /\
  boots_of_mock (wb w') = boots_of_mock (wb w) /\
  loading (wb w') = loading (wb w).

(** Every field of the [Socks] but the queue is left alone. *)
Definition socks_same (w w' : World) : Prop :=
  self (sk w') = self (sk w) /\
  s_isReady (sk w') = s_isReady (sk w) /\
  sentReadyMessage (sk w') = sentReadyMessage (sk w) /\
  boots (sk w') = boots (sk w) /\
  s_onMessageCallback (sk w') = s_onMessageCallback (sk w) /\
  terminateCallback (sk w') = terminateCallback (sk w).

(** The calls made on the host reference. *)
Definition is_host_event (e : event) : bool :=
  match e with
  | SelfPostMessage _ | SelfTerminate => true
  | _ => false
  end.

Definition host_events (t : list event) : list event :=
  filter is_host_event t.

(** Once the host reference is gone it stays gone, and no call reaches it. *)
Definition hostless (w w' : World) : Prop :=
  self (sk w) = None ->
  self (sk w') = None /\ host_events (trace w') = host_events (trace w).

Definition with_trace (t : list event) (w : World) : World :=
  {| wb := wb w; sk := sk w; trace := t |}.

(** [postsBeforeReady.forEach(args => this.postMessage(...args))] *)
Definition post (env : Env) (p : value * value * list value) : M unit :=
  let '(data, origin, transfer) := p in
  Socks_postMessage env data origin transfer.

(** The [Socks] fields once [ready()] has announced and replayed. *)
Definition drained (s : Socks) : Socks :=
  set_postsBeforeReady [] (set_s_isReady true (set_sentReadyMessage true s)).

(** ** Concrete environments and runs *)

Definition node_env : Env :=
  {| isBrowser := false; isNode := true; hasWorker := false |}.

Definition browser_env : Env :=
  {| isBrowser := true; isNode := false; hasWorker := true |}.

(** Nothing constructed yet on the caller side; [new Socks()] on the other. *)
Definition start : World :=
  {| wb := blank; sk := Socks_constructor None; trace := [] |}.

Definition exec (m : M unit) (w : World) : World := snd (m w).

(** The [parentPort] of a Node worker thread. *)
Definition parentPort : Host :=
  {| host_on := true; host_terminate := false;
     host_onmessage := None; host_listeners := [] |}.

(** The workers of [test-utils.js] as the factory returns them:
    [MockWorker] has an [onmessage] slot, [MockNodeWorker] an [on] method
    and a listener list. *)
Definition MockWorker : Handle :=
  {| h_postMessage := true; h_on := false; h_terminate := true;
     h_onmessage := None; h_listeners := [] |}.

Definition MockNodeWorker : Handle :=
  {| h_postMessage := true; h_on := true; h_terminate := true;
     h_onmessage := None; h_listeners := [] |}.

(** The timer both mock constructors set:
    [if (this.onmessage) this.onmessage({ data: 'socks loaded' })] and
    [this.emit('message', { data: 'socks loaded' })]. *)
Definition MockWorker_timer : M unit :=
  w <- get ;;
  match worker (wb w) with
  | Some h =>
      match h_onmessage h with
      | Some cb => call_callback cb [envelope socks_loaded]
      | None => ret tt
      end
  | None => ret tt
  end.

Definition MockNodeWorker_timer : M unit :=
  w <- get ;;
  match worker (wb w) with
  | Some h =>
      forEach (fun cb => call_callback cb [envelope socks_loaded])
              (h_listeners h)
  | None => ret tt
  end.

(** [{ elite: 313370 }], the payload of the repository's own tests. *)
Definition elite : value := VObj [("elite", VNum 313370)].

(** The fallback of [work-boots.test.js]: the factory throws, the module
    [work-boots.test.node.socks.js] is imported ([new Socks(undefined)],
    [socks.onMessage(...)], [socks.ready()]) and adopted, and the test then
    registers its callback. *)
Definition bridge_ready : World := Eval vm_compute in
  let w := exec (WorkBoots_constructor node_env (Some "./socks.js") FactoryThrows) start in
  let w := exec (Socks_onMessage node_env 1) w in
  let w := exec (Socks_ready node_env) w in
  let w := exec (loadSocksFile_settled node_env (ModuleLoaded true)) w in
  exec (WorkBoots_onMessage node_env (AppCallback 7)) w.

(** The same run with the callback registered right after construction, as
    the README and the integration tests do. *)
Definition bridge_early_callback : World := Eval vm_compute in
  let w := exec (WorkBoots_constructor node_env (Some "./socks.js") FactoryThrows) start in
  let w := exec (WorkBoots_onMessage node_env (AppCallback 7)) w in
  let w := exec (Socks_onMessage node_env 1) w in
  let w := exec (Socks_ready node_env) w in
  exec (loadSocksFile_settled node_env (ModuleLoaded true)) w.

(** A [Socks] inside a Node worker thread ([new Socks(parentPort)]) that
    posts twice before calling [ready()]. *)
Definition remote_two_posts : World := Eval vm_compute in
  let w := {| wb := blank; sk := Socks_constructor (Some parentPort); trace := [] |} in
  let w := exec (Socks_postMessage node_env (VObj [("n", VNum 1)]) VUndefined []) w in
  exec (Socks_postMessage node_env (VObj [("n", VNum 2)]) VUndefined []) w.

(** The round trip of [integration.test.js] "with worker": the factory
    returns a [MockNodeWorker], the test registers its callback, and the
    mock's timer fires. *)
Definition remote_early_callback : World := Eval vm_compute in
  let w := exec (WorkBoots_constructor node_env (Some "./socks.js")
                   (FactoryReturns (Some MockNodeWorker))) start in
  let w := exec (WorkBoots_onMessage node_env (AppCallback 7)) w in
  exec MockNodeWorker_timer w.

(** [new WorkBoots({})] *)
Definition no_descriptor : World := Eval vm_compute in
  exec (WorkBoots_constructor node_env None FactoryThrows) start.


Definition host_with_handler : Host :=
  {| host_on := false; host_terminate := true;
     host_onmessage := Some 3; host_listeners := [] |}.



(** ** The rest of the two classes and of [test-utils.js] *)




(** A step of a run: a call on one of the two objects, or the settling of
    [loadSocksFile]. *)
Inductive step : Type :=
| Call (o : op)
| Settle (r : loaded).

Definition do_step (env : Env) (s : step) : M unit :=
  match s with
  | Call o => do_op env o
  | Settle r => loadSocksFile_settled env r
  end.

Definition run_steps (env : Env) (steps : list step) (w : World) : World :=
  fold_left (fun w s => snd (do_step env s w)) steps w.

(** The calls made on the worker handle. *)
Definition is_worker_event (e : event) : bool :=
  match e with
  | WorkerPostMessage _ | WorkerTerminate => true
  | _ => false
  end.

Definition worker_events (t : list event) : list event :=
  filter is_worker_event t.

(** The mode chosen by the constructor is kept: [supportsWorker] and the
    presence of a handle do not change. *)
Definition mode_fixed (w w' : World) : Prop :=
  supportsWorker (wb w') = supportsWorker (wb w) /\
  is_some (worker (wb w')) = is_some (worker (wb w)).

(** Without a handle, none appears and no call is made on one. *)
Definition workerless (w w' : World) : Prop :=
  worker (wb w) = None ->
  worker (wb w') = None /\ worker_events (trace w') = worker_events (trace w).

(** Once [isReady] is set on the [Socks] it stays set, and the queue does
    not grow any more: it is as it was, or emptied. *)
Definition ready_stays (w w' : World) : Prop :=
  s_isReady (sk w) = true ->
  s_isReady (sk w') = true /\
  (postsBeforeReady (sk w') = postsBeforeReady (sk w) \/
   postsBeforeReady (sk w') = []).

(** The events [terminate()] of a [Socks] produces: the termination
    callback, then the host's [terminate]. *)
Definition terminate_events (s : Socks) : list event :=
  (match terminateCallback s with
   | Some cb => [TerminateCallback cb]
   | None => []
   end) ++
  (match self s with
   | Some h => if host_terminate h then [SelfTerminate] else []
   | None => []
   end).

(** Messages handed one after the other to [onMessageLocal] of the
    [WorkBoots]. *)
Definition deliver_all (ds : list value) : M unit :=
  forEach (fun d => WorkBoots_onMessageLocal d VUndefined []) ds.

(** Posts made one after the other on the [WorkBoots]. *)
Definition post_all (env : Env) (ps : list (value * value * list value))
  : M unit :=
  forEach (fun '(data, origin, transfer) =>
             WorkBoots_postMessage env data origin transfer) ps.

(** What [velcroAndLaces] stores for such a post: [[data, origin, transfer]]
    with the default origin applied. *)
Definition stored_post (p : value * value * list value) : list value :=
  let '(data, origin, transfer) := p in
  [data; default_origin origin; VArr transfer].

(** Callbacks registered one after the other with [onMessage]. *)
Definition register_all (env : Env) (cbs : list nat) (w : World) : World :=
  fold_left (fun w cb => snd (WorkBoots_onMessage env (AppCallback cb) w)) cbs w.

(** The [Socks] is left exactly as it was. *)
Definition socks_untouched (w w' : World) : Prop := sk w' = sk w.

(** The calls one [terminate()] of the [WorkBoots] makes: on the handle
    when there is one with a [terminate] function, otherwise whatever the
    loaded [Socks] does; the stand-in's [terminate] is empty. *)
Definition terminate_calls (env : Env) (w : World) : list event :=
  let via_socks :=
    match socks (wb w) with
    | Some LoadedSocks => terminate_events (sk w)
    | _ => []
    end in
  match supportsWorker (wb w), worker (wb w) with
  | true, Some h =>
      if h_terminate h then
        if isBrowser env || isNode env then [WorkerTerminate] else []
      else via_socks
  | _, _ => via_socks
  end.

(** [receivedBeforeReady] with one more list of entries. *)
Definition received_more (entries : list (list value)) (w : World) : World :=
  {| wb := set_receivedBeforeReady
             (match receivedBeforeReady (wb w) with
              | Some q => Some (q ++ entries)
              | None => None
              end) (wb w);
     sk := sk w; trace := trace w |}.

(** The fields [onMessage] sets, before it replays. *)
Definition registered (env : Env) (cb : callback) (b : WorkBoots) : WorkBoots :=
  match worker b with
  | Some h =>
      set_worker (Some (subscribe env cb h)) (set_onMessageCallback (Some cb) b)
  | None => set_onMessageCallback (Some cb) b
  end.

(** After [new WorkBoots({ socksFile, instantiateWorker })] with a factory
    that throws, before the import settles. *)
Definition constructed_fallback : World := Eval vm_compute in
  exec (WorkBoots_constructor node_env (Some "./socks.js") FactoryThrows) start.


(** After [new WorkBoots({ socksFile, instantiateWorker })] with a factory
    that returns a [MockNodeWorker]. *)
Definition constructed_remote : World := Eval vm_compute in
  exec (WorkBoots_constructor node_env (Some "./socks.js")
          (FactoryReturns (Some MockNodeWorker))) start.


(** A [Socks] that is ready on a page with the [Worker] type and a host. *)
Definition page_socks_ready : World := Eval vm_compute in
  exec (Socks_ready browser_env)
    {| wb := blank; sk := Socks_constructor (Some host_with_handler);
       trace := [] |}.


(** The fallback with the application callback registered, before the
    module is imported: [new Socks()] has not been touched yet. *)
Definition fallback_with_callback : World := Eval vm_compute in
  exec (WorkBoots_onMessage node_env (AppCallback 7)) constructed_fallback.

(** ** The mock workers of [test-utils.js]

    The two classes the tests put in place of a worker, with their own
    state: the pending [setTimeout] callbacks are kept in the order they
    were set (all have the same delay), and a callback invoked by a mock is
    recorded with its argument. *)

Module Mocks.

(** [{ data: { echo: data } }] *)
Definition echo (data : value) : value :=
  envelope (VObj [("echo", data)]).

(** [MockNodeWorker]: [listeners] is the [Map] from event names to arrays
    of callbacks ([None]: no entry), [timers] the pending
    [this.emit(event, data)] calls. *)
Record NodeWorker : Type := {
  listeners : string -> option (list nat);
  terminated : bool;
  timers : list (string * value)
}.

(** [new MockNodeWorker(scriptUrl)] *)
Definition new_NodeWorker : NodeWorker :=
  {| listeners := fun _ => None; terminated := false;
     timers := [("message", envelope socks_loaded)] |}.

(** [this.listeners.get(event) || []] *)
Definition callbacks (event : string) (m : NodeWorker) : list nat :=
  match listeners m event with
  | Some l => l
  | None => []
  end.

Definition set_callbacks (event : string) (l : list nat) (m : NodeWorker)
  : NodeWorker :=
  {| listeners := fun e => if String.eqb e event then Some l else listeners m e;
     terminated := terminated m; timers := timers m |}.

(** [on(event, callback)] *)
Definition on (event : string) (cb : nat) (m : NodeWorker) : NodeWorker :=
  set_callbacks event (callbacks event m ++ [cb]) m.

(** [callbacks.splice(callbacks.indexOf(callback), 1)] when the index is
    found. *)
Fixpoint remove_first (cb : nat) (l : list nat) : list nat :=
  match l with
  | [] => []
  | x :: l' => if Nat.eqb x cb then l' else x :: remove_first cb l'
  end.

(** [removeListener(event, callback)]: without an entry for the event the
    array searched is a fresh one and the map is left alone. *)
Definition removeListener (event : string) (cb : nat) (m : NodeWorker)
  : NodeWorker :=
  match listeners m event with
  | Some l => set_callbacks event (remove_first cb l) m
  | None => m
  end.

(** [emit(event, data)]: the calls it makes, in order. *)
Definition emit (event : string) (data : value) (m : NodeWorker)
  : list (nat * value) :=
  map (fun cb => (cb, data)) (callbacks event m).

(** [postMessage(data, transfer)] *)
Definition postMessage (data : value) (m : NodeWorker) : NodeWorker :=
  if terminated m then m
  else {| listeners := listeners m; terminated := terminated m;
          timers := timers m ++ [("message", echo data)] |}.

(** [terminate()] *)
Definition terminate (m : NodeWorker) : NodeWorker :=
  {| listeners := listeners m; terminated := true; timers := timers m |}.

(** All pending timers fire, oldest first: the calls made. *)
Definition fire_all (m : NodeWorker) : list (nat * value) :=
  flat_map (fun t => emit (fst t) (snd t) m) (timers m).

(** [MockWorker]: one [onmessage] slot; a pending timer is
    [if (this.onmessage) this.onmessage(data)]. *)
Record Worker : Type := {
  onmessage : option nat;
  w_terminated : bool;
  w_timers : list value
}.

(** [new MockWorker(scriptUrl)] *)
Definition new_Worker : Worker :=
  {| onmessage := None; w_terminated := false;
     w_timers := [envelope socks_loaded] |}.

(** [addEventListener(event, callback)] *)
Definition addEventListener (event : string) (cb : nat) (m : Worker) : Worker :=
  if String.eqb event "message"
  then {| onmessage := Some cb; w_terminated := w_terminated m;
          w_timers := w_timers m |}
  else m.

(** [removeEventListener(event, callback)] *)
Definition removeEventListener (event : string) (cb : nat) (m : Worker)
  : Worker :=
  if String.eqb event "message"
  then {| onmessage := None; w_terminated := w_terminated m;
          w_timers := w_timers m |}
  else m.

(** [postMessage(data, transfer)] *)
Definition w_postMessage (data : value) (m : Worker) : Worker :=
  if w_terminated m then m
  else {| onmessage := onmessage m; w_terminated := w_terminated m;
          w_timers := w_timers m ++ [echo data] |}.

(** [terminate()] *)
Definition w_terminate (m : Worker) : Worker :=
  {| onmessage := onmessage m; w_terminated := true; w_timers := w_timers m |}.

(** All pending timers fire: the calls made. *)
Definition w_fire_all (m : Worker) : list (nat * value) :=
  match onmessage m with
  | Some cb => map (fun d => (cb, d)) (w_timers m)
  | None => []
  end.

End Mocks.

(** * Reasoning principles *)

Section Keeps.

Variable R : World -> World -> Prop.
Hypothesis R_refl : forall w, R w w.
Hypothesis R_trans : forall a b c, R a b -> R b c -> R a c.

Lemma keeps_ret {A} (a : A) : keeps R (ret a).
Proof. intro w. apply R_refl. Qed.

Lemma keeps_throw {A} (e : error) : keeps R (@throw A e).
Proof. intro w. apply R_refl. Qed.

Lemma keeps_get : keeps R get.
Proof. intro w. apply R_refl. Qed.

Lemma keeps_socks_message data : keeps R (socks_message data).
Proof. intro w. apply R_refl. Qed.

Lemma keeps_bind {A B} (m : M A) (k : A -> M B) :
  keeps R m -> (forall a, keeps R (k a)) -> keeps R (bind m k).
Proof.
  intros Hm Hk w. unfold bind.
  specialize (Hm w). destruct (m w) as [[a|e] w1]; simpl in *.
  - eapply R_trans; [exact Hm | apply Hk].
  - exact Hm.
Qed.

Lemma keeps_try_catch {A} (m : M A) (h : error -> M A) :
  keeps R m -> (forall e, keeps R (h e)) -> keeps R (try_catch m h).
Proof.
  intros Hm Hh w. unfold try_catch.
  specialize (Hm w). destruct (m w) as [[a|e] w1]; simpl in *.
  - exact Hm.
  - eapply R_trans; [exact Hm | apply Hh].
Qed.

Lemma keeps_forEach {A} (f : A -> M unit) (l : list A) :
  (forall x, keeps R (f x)) -> keeps R (forEach f l).
Proof.
  intro Hf. induction l as [|x l IH]; simpl.
  - apply keeps_ret.
  - apply keeps_bind; [apply Hf | intros _; exact IH].
Qed.

Lemma keeps_run_ops env (ops : list op) :
  (forall o, keeps R (do_op env o)) ->
  forall w, R w (run_ops env ops w).
Proof.
  intro Hop. unfold run_ops.
  induction ops as [|o ops IH]; intro w; simpl.
  - apply R_refl.
  - eapply R_trans; [apply Hop | apply IH].
Qed.

End Keeps.

Ltac break_match :=
  match goal with
  | |- context [match ?x with _ => _ end] =>
      let E := fresh "E" in destruct x eqn:E; simpl; rewrite ?E
  end.

(** Decomposes a [keeps] goal along the structure of the method: [known]
    closes the calls for which a lemma is at hand, [prim] the primitive
    updates. *)
Ltac keeps_with Hrefl Htrans known prim :=
  repeat first
    [ solve [ known ]
    | apply (keeps_ret _ Hrefl)
    | apply (keeps_throw _ Hrefl)
    | apply (keeps_get _ Hrefl)
    | apply (keeps_socks_message _ Hrefl)
    | progress cbv beta zeta delta [call_callback velcroAndLaces resolve
                                      socks_onMessageLocal self_postMessage
                                      worker_postMessage]
    | match goal with
      | |- keeps _ (match ?x with _ => _ end) => destruct x
      end
    | apply (keeps_forEach _ Hrefl Htrans); intro
    | apply (keeps_try_catch _ Htrans); [ | intro ]
    | apply (keeps_bind _ Htrans); [ | intro ]
    | solve [ prim ] ].

(** *** The trace only grows *)

Lemma extends_refl w : extends w w.
Proof. exists []. now rewrite app_nil_r. Qed.

Lemma extends_trans a b c : extends a b -> extends b c -> extends a c.
Proof.
  intros [e1 H1] [e2 H2]. exists (e1 ++ e2).
  now rewrite H2, H1, app_assoc.
Qed.

Ltac extends_prim :=
  let w := fresh "w" in
  intro w; unfold extends, emit, add_event, modify_wb, modify_sk; simpl;
  first [ now exists [] ; rewrite app_nil_r | eexists; reflexivity ].

Ltac extends_auto :=
  keeps_with extends_refl extends_trans ltac:(fail) ltac:(extends_prim).

Lemma extends_do_op env o : keeps extends (do_op env o).
Proof.
  destruct o as [[]|[]]; simpl; extends_auto.
Qed.

(** *** The promise settles once *)

Lemma promise_le_refl p : promise_le p p.
Proof. now left. Qed.

Lemma promise_le_trans p q r : promise_le p q -> promise_le q r -> promise_le p r.
Proof.
  unfold promise_le. intros [->|[-> ->]] [->|[H ->]]; auto; discriminate.
Qed.

Lemma promise_grows_refl w : promise_grows w w.
Proof. apply promise_le_refl. Qed.

Lemma promise_grows_trans a b c :
  promise_grows a b -> promise_grows b c -> promise_grows a c.
Proof. apply promise_le_trans. Qed.

Ltac promise_prim :=
  let w := fresh "w" in
  intro w; unfold promise_grows, promise_le, emit, add_event, modify_wb, modify_sk; simpl;
  repeat break_match; auto.

Ltac promise_auto :=
  keeps_with promise_grows_refl promise_grows_trans ltac:(fail)
             ltac:(promise_prim).

Lemma promise_grows_do_op env o : keeps promise_grows (do_op env o).
Proof.
  destruct o as [[]|[]]; simpl; promise_auto.
Qed.

(** *** The [Socks] side leaves the [WorkBoots] fields alone *)

Lemma boots_frame_refl w : boots_frame w w.
Proof. unfold boots_frame. repeat split; auto using promise_le_refl. Qed.

Lemma boots_frame_trans a b c :
  boots_frame a b -> boots_frame b c -> boots_frame a c.
Proof.
  unfold boots_frame. intros H1 H2.
  destruct H1 as (P1 & ? & ? & ? & ? & ? & ? & ?).
  destruct H2 as (P2 & ? & ? & ? & ? & ? & ? & ?).
  repeat split; try congruence. eapply promise_le_trans; eauto.
Qed.

Ltac boots_frame_prim :=
  let w := fresh "w" in
  intro w; unfold boots_frame, promise_le, emit, add_event, modify_wb, modify_sk; simpl;
  repeat break_match; repeat split; auto.

Ltac boots_frame_auto :=
  keeps_with boots_frame_refl boots_frame_trans ltac:(fail)
             ltac:(boots_frame_prim).

Lemma boots_frame_do_socks_op env o : keeps boots_frame (do_socks_op env o).
Proof.
  destruct o; simpl; boots_frame_auto.
Qed.

(** *** Posting leaves the [Socks] fields alone, the queue apart *)

Lemma socks_same_refl w : socks_same w w.
Proof. unfold socks_same. repeat split; auto. Qed.

Lemma socks_same_trans a b c :
  socks_same a b -> socks_same b c -> socks_same a c.
Proof.
  unfold socks_same. intros H1 H2.
  destruct H1 as (? & ? & ? & ? & ? & ?).
  destruct H2 as (? & ? & ? & ? & ? & ?).
  repeat split; congruence.
Qed.

Ltac socks_same_prim :=
  let w := fresh "w" in
  intro w; unfold socks_same, emit, add_event, modify_wb, modify_sk; simpl;
  repeat break_match; repeat split; auto.

Ltac socks_same_auto :=
  keeps_with socks_same_refl socks_same_trans ltac:(fail)
             ltac:(socks_same_prim).

Lemma socks_same_postMessage env data origin transfer :
  keeps socks_same (Socks_postMessage env data origin transfer).
Proof. socks_same_auto. Qed.

Lemma socks_same_processReadyMessages env :
  keeps socks_same (Socks_processReadyMessages env).
Proof. socks_same_auto. Qed.

Lemma socks_same_do_boots_op env o : keeps socks_same (do_boots_op env o).
Proof. destruct o; simpl; socks_same_auto. Qed.

(** *** Without a host reference no call reaches the host *)

Lemma hostless_refl w : hostless w w.
Proof. intro H. auto. Qed.

Lemma hostless_trans a b c : hostless a b -> hostless b c -> hostless a c.
Proof.
  unfold hostless. intros H1 H2 Ha.
  destruct (H1 Ha) as [Hb E1]. destruct (H2 Hb) as [Hc E2].
  split; congruence.
Qed.

Lemma isWorkerSupported_no_self env s :
  self s = None -> isWorkerSupported env s = false.
Proof.
  intro H. unfold isWorkerSupported. rewrite H. simpl.
  destruct (isBrowser env), (isNode env); auto using andb_false_r.
Qed.

Ltac hostless_prim :=
  let w := fresh "w" in
  let Hs := fresh "Hs" in
  intro w; unfold hostless, host_events, emit, add_event, modify_wb, modify_sk; simpl;
  intro Hs; rewrite ?filter_app; simpl; rewrite ?app_nil_r, ?Hs;
  repeat break_match; auto.

Create HintDb hostless_db.

Ltac hostless_auto :=
  keeps_with hostless_refl hostless_trans ltac:(auto with hostless_db)
             ltac:(hostless_prim).

Lemma hostless_WorkBoots_onMessageLocal data origin transfer :
  keeps hostless (WorkBoots_onMessageLocal data origin transfer).
Proof. hostless_auto. Qed.

Lemma hostless_Socks_postMessage env data origin transfer :
  keeps hostless (Socks_postMessage env data origin transfer).
Proof.
  intros w Hs.
  assert (K : keeps hostless
                (message <- socks_message data ;;
                 boots_onMessageLocal [message; origin; VArr transfer]
                                      message origin transfer))
    by hostless_auto.
  change (Socks_postMessage env data origin transfer w)
    with ((if negb (s_isReady (sk w))
           then modify_sk (push_post data origin transfer)
           else message <- socks_message data ;;
                if isWorkerSupported env (sk w)
                then self_postMessage env data origin transfer
                else boots_onMessageLocal [message; origin; VArr transfer]
                                          message origin transfer) w).
  rewrite (isWorkerSupported_no_self _ _ Hs).
  destruct (s_isReady (sk w)); simpl.
  - now apply K.
  - now split.
Qed.

Lemma hostless_Socks_terminate : keeps hostless Socks_terminate.
Proof.
  intros w Hs. unfold Socks_terminate, bind, get. rewrite Hs.
  unfold host_events.
  destruct (terminateCallback (sk w)); simpl;
    now rewrite ?filter_app, ?app_nil_r.
Qed.

#[local] Hint Resolve hostless_Socks_postMessage hostless_Socks_terminate
  : hostless_db.


(** * The two delivery entry points *)



(** * Construction *)

(** C10. When the factory is called and returns a handle, the promise is
    resolved by the time the constructor returns: nothing has been received
    ([receivedBeforeReady] is empty, no callback has run), and the handle is
    exactly as the factory returned it, the readiness listener not even
    subscribed to it. *)
Theorem ready_resolves_during_construction :
  forall (env : Env) (w0 : World) (file : string) (h : Handle),
    detectWorkerSupport env = true ->
    let r := WorkBoots_constructor env (Some file) (FactoryReturns (Some h)) w0 in
    fst r = Ok tt /\
    readyPromise (wb (snd r)) = Resolved /\
    isReady (wb (snd r)) = true /\
    supportsWorker (wb (snd r)) = true /\
    worker (wb (snd r)) = Some h /\
    onMessageCallback (wb (snd r)) = Some VelcroAndLaces /\
    receivedBeforeReady (wb (snd r)) = Some [] /\
    loading (wb (snd r)) = false /\
    sk (snd r) = sk w0 /\
    trace (snd r) = trace w0.
Proof.
  intros env w0 file h Hd. simpl.
  unfold WorkBoots_constructor, WorkBoots_onMessage, bind, modify_wb, get,
    resolve; simpl.
  rewrite Hd. simpl. repeat split.
Qed.

Lemma ready_resolves_during_construction_witness :
  let r := WorkBoots_constructor browser_env (Some "./socks.js")
             (FactoryReturns (Some MockWorker)) start in
  readyPromise (wb (snd r)) = Resolved /\
  worker (wb (snd r)) = Some MockWorker /\
  trace (snd r) = [].
Proof.
  destruct (ready_resolves_during_construction browser_env start "./socks.js"
              MockWorker eq_refl)
    as (_ & H2 & _ & _ & H5 & _ & _ & _ & _ & H10).
  exact (conj H2 (conj H5 H10)).
Defined.




(** * Posting from the [Socks] *)

Lemma Socks_postMessage_eq env data origin transfer w :
  Socks_postMessage env data origin transfer w =
  if s_isReady (sk w) then
    match message_of data with
    | Ok message =>
        if isWorkerSupported env (sk w) then
          self_postMessage env data origin transfer w
        else
          boots_onMessageLocal [message; origin; VArr transfer]
                               message origin transfer w
    | Throw e => (Throw e, w)
    end
  else
    (Ok tt, {| wb := wb w; sk := push_post data origin transfer (sk w);
               trace := trace w |}).
Proof.
  unfold Socks_postMessage, bind, get, socks_message, modify_sk.
  destruct (s_isReady (sk w)); simpl; [|reflexivity].
  destruct (message_of data); [|reflexivity].
  destruct (isWorkerSupported env (sk w)); reflexivity.
Qed.

(** Before [isReady] a post is appended to the queue and nothing is called. *)
Lemma Socks_postMessage_queues env data origin transfer w :
  s_isReady (sk w) = false ->
  Socks_postMessage env data origin transfer w =
  (Ok tt, {| wb := wb w; sk := push_post data origin transfer (sk w);
             trace := trace w |}).
Proof. intro H. rewrite Socks_postMessage_eq, H. reflexivity. Qed.

Lemma self_postMessage_supported env data origin transfer w :
  isWorkerSupported env (sk w) = true ->
  self_postMessage env data origin transfer w =
  (Ok tt, add_event (self_call env data origin transfer) w).
Proof.
  unfold isWorkerSupported, self_postMessage, self_call.
  destruct (isBrowser env); [reflexivity|].
  destruct (isNode env); [reflexivity | discriminate].
Qed.

(** With a host, a post made when ready is one call on the host. *)
Lemma Socks_postMessage_remote env data origin transfer w m :
  s_isReady (sk w) = true ->
  isWorkerSupported env (sk w) = true ->
  message_of data = Ok m ->
  Socks_postMessage env data origin transfer w =
  (Ok tt, add_event (self_call env data origin transfer) w).
Proof.
  intros Hr Hs Hm. rewrite Socks_postMessage_eq, Hr, Hm, Hs.
  now apply self_postMessage_supported.
Qed.

(** Across the bridge, a post made when ready reaches the application
    callback of the [WorkBoots] as [{ data: message }], [message] being the
    payload already wrapped by the [Socks]. *)
Lemma Socks_postMessage_bridge env data origin transfer w m id :
  s_isReady (sk w) = true ->
  isWorkerSupported env (sk w) = false ->
  boots (sk w) = true ->
  onMessageCallback (wb w) = Some (AppCallback id) ->
  message_of data = Ok m ->
  Socks_postMessage env data origin transfer w =
  (Ok tt, with_trace (trace w ++ [ToBoots [m; origin; VArr transfer];
                                  BootsCallback id [envelope m]]) w).
Proof.
  intros Hr Hs Hb Hc Hm. rewrite Socks_postMessage_eq, Hr, Hm, Hs.
  unfold boots_onMessageLocal, WorkBoots_onMessageLocal, bind, get, emit,
    add_event, with_trace.
  rewrite Hb. simpl. rewrite Hc. simpl.
  unfold emit, add_event. simpl. now rewrite <- app_assoc.
Qed.

(** Replaying a queue on the host: one call per post, in queue order. *)
Lemma replay_on_host env l :
  forall w,
    s_isReady (sk w) = true ->
    isWorkerSupported env (sk w) = true ->
    Forall postable l ->
    forEach (post env) l w =
    (Ok tt, with_trace (trace w ++ map (replay_remote env) l) w).
Proof.
  induction l as [|[[d o] t] l IH]; intros w Hr Hs Hl; simpl.
  - unfold ret, with_trace. rewrite app_nil_r. now destruct w.
  - inversion Hl as [|? ? [m Hm] Hl']; subst. simpl in Hm.
    unfold bind. rewrite (Socks_postMessage_remote _ _ _ _ _ m Hr Hs Hm).
    rewrite IH; auto. unfold with_trace, add_event. simpl.
    now rewrite <- app_assoc.
Qed.

(** Replaying a queue across the bridge: per post, the call into the
    [WorkBoots] and the callback it triggers, in queue order. *)
Lemma replay_over_bridge env id l :
  forall w,
    s_isReady (sk w) = true ->
    isWorkerSupported env (sk w) = false ->
    boots (sk w) = true ->
    onMessageCallback (wb w) = Some (AppCallback id) ->
    Forall postable l ->
    forEach (post env) l w =
    (Ok tt, with_trace (trace w ++ flat_map (replay_bridge id) l) w).
Proof.
  induction l as [|[[d o] t] l IH]; intros w Hr Hs Hb Hc Hl; simpl.
  - unfold ret, with_trace. rewrite app_nil_r. now destruct w.
  - inversion Hl as [|? ? [m Hm] Hl']; subst. simpl in Hm.
    unfold bind. rewrite (Socks_postMessage_bridge _ _ _ _ _ m id Hr Hs Hb Hc Hm).
    rewrite IH; auto. unfold with_trace. simpl. rewrite Hm.
    now rewrite <- app_assoc.
Qed.

Lemma postable_socks_loaded : postable (socks_loaded, VUndefined, []).
Proof. exists (envelope socks_loaded). reflexivity. Qed.

(** [ready()] inside a worker: the announcement is itself queued behind the
    pending posts, so the host sees the pending posts first and
    ['socks loaded'] last. *)
Lemma Socks_ready_remote env w :
  isWorkerSupported env (sk w) = true ->
  s_isReady (sk w) = false ->
  Forall postable (postsBeforeReady (sk w)) ->
  Socks_ready env w =
  (Ok tt, {| wb := wb w; sk := drained (sk w);
             trace := trace w ++
                      map (replay_remote env)
                          (postsBeforeReady (sk w) ++
                           [(socks_loaded, VUndefined, [])]) |}).
Proof.
  intros Hs Hr Hq.
  unfold Socks_ready. unfold bind at 1. unfold get at 1. rewrite Hs.
  unfold bind at 1. unfold bind at 1.
  rewrite (Socks_postMessage_queues _ _ _ _ _ Hr).
  unfold modify_sk at 1. unfold bind at 1. unfold modify_sk at 1.
  unfold Socks_processReadyMessages. unfold bind at 1. unfold get at 1.
  cbn [sk sentReadyMessage set_s_isReady set_sentReadyMessage push_post
       set_postsBeforeReady postsBeforeReady].
  unfold bind at 1.
  change (fun '(data, origin, transfer) => Socks_postMessage env data origin transfer)
    with (post env).
  rewrite replay_on_host.
  - reflexivity.
  - reflexivity.
  - exact Hs.
  - apply Forall_app. split; [exact Hq|].
    constructor; [apply postable_socks_loaded | constructor].
Qed.

(** [ready()] after adoption: the announcement goes across the bridge
    first, then the pending posts in queue order. *)
Lemma Socks_ready_bridge env w id :
  isWorkerSupported env (sk w) = false ->
  boots (sk w) = true ->
  s_isReady (sk w) = false ->
  onMessageCallback (wb w) = Some (AppCallback id) ->
  Forall postable (postsBeforeReady (sk w)) ->
  Socks_ready env w =
  (Ok tt, {| wb := wb w; sk := drained (sk w);
             trace := trace w ++
                      [ToBoots [socks_loaded];
                       BootsCallback id [envelope socks_loaded]] ++
                      flat_map (replay_bridge id) (postsBeforeReady (sk w)) |}).
Proof.
  intros Hs Hb Hr Hc Hq.
  unfold Socks_ready. unfold bind at 1. unfold get at 1. rewrite Hs, Hb.
  unfold bind at 1. unfold bind at 1.
  unfold boots_onMessageLocal, WorkBoots_onMessageLocal.
  unfold bind at 1. unfold get at 1. rewrite Hb.
  unfold bind at 1. unfold emit at 1. unfold bind at 1. unfold get at 1.
  cbn [wb add_event]. rewrite Hc. cbn [call_callback]. unfold emit at 1.
  unfold modify_sk at 1. unfold bind at 1. unfold modify_sk at 1.
  unfold Socks_processReadyMessages. unfold bind at 1. unfold get at 1.
  cbn [sk sentReadyMessage set_s_isReady set_sentReadyMessage add_event
       postsBeforeReady].
  unfold bind at 1.
  change (fun '(data, origin, transfer) => Socks_postMessage env data origin transfer)
    with (post env).
  rewrite (replay_over_bridge env id).
  - unfold modify_sk, with_trace, drained. simpl.
    now rewrite <- !app_assoc.
  - reflexivity.
  - exact Hs.
  - exact Hb.
  - exact Hc.
  - exact Hq.
Qed.

(** [ready()] before adoption, outside a worker: nothing is announced and
    the queue stays as it is. *)
Lemma Socks_ready_unadopted env w :
  isWorkerSupported env (sk w) = false ->
  boots (sk w) = false ->
  sentReadyMessage (sk w) = false ->
  Socks_ready env w =
  (Ok tt, {| wb := wb w; sk := set_s_isReady true (sk w); trace := trace w |}).
Proof.
  intros Hs Hb Hn.
  unfold Socks_ready, Socks_processReadyMessages, bind, get, modify_sk, ret.
  rewrite Hs, Hb. simpl. rewrite Hn. reflexivity.
Qed.

(** * Posting from the [WorkBoots] *)

(** Before [isReady] the post goes to the callback in the slot, and throws
    when the slot is empty. *)
Lemma WorkBoots_postMessage_not_ready env data origin transfer w :
  isReady (wb w) = false ->
  WorkBoots_postMessage env data origin transfer w =
  match onMessageCallback (wb w) with
  | Some cb => call_callback cb [data; default_origin origin; VArr transfer] w
  | None => (Throw not_a_function, w)
  end.
Proof.
  intro H. unfold WorkBoots_postMessage, bind, get. rewrite H. simpl.
  destruct (onMessageCallback (wb w)); reflexivity.
Qed.


(** * The state of a [Socks] *)

Lemma Socks_wf_same env w w' :
  socks_same w w' -> Socks_wf env (sk w) -> Socks_wf env (sk w').
Proof.
  intros (Hs & Hr & Hn & _) Hwf. unfold Socks_wf, isWorkerSupported in *.
  rewrite Hs, Hr, Hn. exact Hwf.
Qed.

Lemma Socks_wf_sent env s :
  sentReadyMessage s = true -> Socks_wf env s.
Proof. intros H _ H'. congruence. Qed.

Lemma Socks_wf_constructor env h : Socks_wf env (Socks_constructor h).
Proof. intros H _. discriminate. Qed.

Lemma boots_onMessageLocal_same args data origin transfer :
  keeps socks_same (boots_onMessageLocal args data origin transfer).
Proof. socks_same_auto. Qed.

Lemma snd_bind {A B} (m : M A) (k : A -> M B) w :
  snd (bind m k w) =
  match m w with
  | (Ok a, w1) => snd (k a w1)
  | (Throw _, w1) => w1
  end.
Proof. unfold bind. now destruct (m w) as [[a|e] w1]. Qed.

(** The second half of [ready()]: [this.isReady = true;
    this.processReadyMessages()]. *)
Lemma ready_tail_fields env w1 :
  let w2 := snd ((modify_sk (set_s_isReady true) ;;
                  Socks_processReadyMessages env) w1) in
  self (sk w2) = self (sk w1) /\
  s_isReady (sk w2) = true /\
  sentReadyMessage (sk w2) = sentReadyMessage (sk w1) /\
  boots (sk w2) = boots (sk w1) /\
  s_onMessageCallback (sk w2) = s_onMessageCallback (sk w1) /\
  terminateCallback (sk w2) = terminateCallback (sk w1).
Proof.
  simpl. rewrite snd_bind. unfold modify_sk at 1.
  match goal with
  | |- context [Socks_processReadyMessages env ?x] =>
      destruct (socks_same_processReadyMessages env x)
        as (H1 & H2 & H3 & H4 & H5 & H6)
  end.
  simpl in *. repeat split; assumption.
Qed.

(** The first half of [ready()] when it announces: the call, then
    [this.sentReadyMessage = true]. *)
Lemma announce_fields (m : M unit) w :
  keeps socks_same m ->
  match (m ;; modify_sk (set_sentReadyMessage true)) w with
  | (Ok _, w1) => sentReadyMessage (sk w1) = true /\ self (sk w1) = self (sk w) /\
                  boots (sk w1) = boots (sk w) /\
                  s_onMessageCallback (sk w1) = s_onMessageCallback (sk w) /\
                  terminateCallback (sk w1) = terminateCallback (sk w)
  | (Throw _, w1) => socks_same w w1
  end.
Proof.
  intro K. specialize (K w). unfold bind, modify_sk.
  destruct (m w) as [[[]|e] w0]; simpl in *; [|exact K].
  destruct K as (? & ? & ? & ? & ? & ?). repeat split; assumption.
Qed.

Lemma Socks_ready_eq env w :
  Socks_ready env w =
  ((if isWorkerSupported env (sk w) then
      Socks_postMessage env socks_loaded VUndefined [] ;;
      modify_sk (set_sentReadyMessage true)
    else if boots (sk w) then
      boots_onMessageLocal [socks_loaded] socks_loaded VUndefined [] ;;
      modify_sk (set_sentReadyMessage true)
    else ret tt) ;;
   modify_sk (set_s_isReady true) ;;
   Socks_processReadyMessages env) w.
Proof. reflexivity. Qed.

Lemma Socks_ready_wf env w :
  Socks_wf env (sk w) -> Socks_wf env (sk (snd (Socks_ready env w))).
Proof.
  intro Hwf. rewrite Socks_ready_eq, snd_bind.
  destruct (isWorkerSupported env (sk w)) eqn:Hs; [|destruct (boots (sk w)) eqn:Hb].
  - pose proof (announce_fields _ w
                  (socks_same_postMessage env socks_loaded VUndefined [])) as F.
    destruct ((Socks_postMessage env socks_loaded VUndefined [] ;;
               modify_sk (set_sentReadyMessage true)) w) as [[[]|e] w1].
    + destruct (ready_tail_fields env w1) as (_ & _ & Hn & _).
      apply Socks_wf_sent. rewrite Hn. apply F.
    + eapply Socks_wf_same; eauto.
  - pose proof (announce_fields _ w
                  (boots_onMessageLocal_same [socks_loaded] socks_loaded
                     VUndefined [])) as F.
    destruct ((boots_onMessageLocal [socks_loaded] socks_loaded VUndefined [] ;;
               modify_sk (set_sentReadyMessage true)) w) as [[[]|e] w1].
    + destruct (ready_tail_fields env w1) as (_ & _ & Hn & _).
      apply Socks_wf_sent. rewrite Hn. apply F.
    + eapply Socks_wf_same; eauto.
  - unfold ret. destruct (ready_tail_fields env w) as (Hself & _).
    intros _ _. unfold isWorkerSupported in *. rewrite Hself. exact Hs.
Qed.


Lemma Socks_enterBoots_eq env w :
  Socks_enterBoots env w =
  match (if s_isReady (sk w) && negb (sentReadyMessage (sk w))
         then Socks_ready env else ret tt) (adopt w) with
  | (Ok _, w2) => (Ok tt, release w2)
  | (Throw e, w2) => (Throw e, w2)
  end.
Proof.
  unfold Socks_enterBoots. unfold bind at 1. unfold modify_sk at 1.
  fold (adopt w). unfold bind at 1. unfold get at 1.
  unfold bind at 1. cbn [adopt sk set_boots s_isReady sentReadyMessage].
  match goal with
  | |- context [(if ?c then _ else _) ?x] =>
      destruct ((if c then Socks_ready env else ret tt) x) as [[[]|e] w2]
  end; [|reflexivity].
  unfold bind, get, modify_sk, release, capture.
  destruct (self (sk w2)) as [h|]; [destruct (host_onmessage h)|]; reflexivity.
Qed.

Lemma Socks_wf_adopt env w : Socks_wf env (sk w) -> Socks_wf env (sk (adopt w)).
Proof. exact (fun H => H). Qed.

Lemma Socks_wf_no_self env s : self s = None -> Socks_wf env s.
Proof. intros H _ _. now apply isWorkerSupported_no_self. Qed.

(** Every call keeps the [Socks] in a state where "ready but not
    announced" means "no worker to talk to". *)
Lemma Socks_wf_do_op env o w :
  Socks_wf env (sk w) -> Socks_wf env (sk (snd (do_op env o w))).
Proof.
  intro Hwf. destruct o as [b|s].
  - eapply Socks_wf_same; [apply socks_same_do_boots_op | exact Hwf].
  - destruct s; simpl.
    + now apply Socks_ready_wf.
    + eapply Socks_wf_same; [apply socks_same_processReadyMessages | exact Hwf].
    + rewrite Socks_enterBoots_eq.
      destruct (s_isReady (sk w) && negb (sentReadyMessage (sk w))).
      * pose proof (Socks_ready_wf env (adopt w) (Socks_wf_adopt env w Hwf)) as R.
        destruct (Socks_ready env (adopt w)) as [[[]|e] w2]; simpl in *.
        -- now apply Socks_wf_no_self.
        -- exact R.
      * now apply Socks_wf_no_self.
    + eapply Socks_wf_same; [apply socks_same_postMessage | exact Hwf].
    + unfold Socks_onMessage, bind, get, modify_sk.
      unfold Socks_wf, isWorkerSupported in *.
      destruct (isBrowser env), (isNode env), (hasWorker env),
        (self (sk w)) eqn:Hself; simpl in *; rewrite ?Hself; simpl; auto.
    + unfold Socks_onMessageLocal, bind, get.
      destruct (s_onMessageCallback (sk w)); exact Hwf.
    + unfold Socks_terminate, bind, get.
      destruct (terminateCallback (sk w)); simpl;
        destruct (self (sk w)) as [h|] eqn:Hself; simpl;
        try destruct (host_terminate h); simpl; exact Hwf.
    + exact Hwf.
Qed.

Lemma Socks_wf_run_ops env ops :
  forall w, Socks_wf env (sk w) -> Socks_wf env (sk (run_ops env ops w)).
Proof.
  unfold run_ops. induction ops as [|o ops IH]; intros w H; simpl; auto.
  apply IH. now apply Socks_wf_do_op.
Qed.






(** * Adoption *)





(** * Round trips across the bridge *)

(** From the [Socks] to the [WorkBoots], the application callback always
    receives the wrapped message wrapped once more. *)
Lemma bridge_reply_shape env data origin transfer w m id :
  s_isReady (sk w) = true ->
  self (sk w) = None ->
  boots (sk w) = true ->
  onMessageCallback (wb w) = Some (AppCallback id) ->
  message_of data = Ok m ->
  exists arg,
    trace (snd (Socks_postMessage env data origin transfer w)) =
    trace w ++ [ToBoots [m; origin; VArr transfer]; BootsCallback id [arg]] /\
    opt_data arg = m.
Proof.
  intros Hr Hs Hb Hc Hm. exists (envelope m).
  rewrite (Socks_postMessage_bridge env data origin transfer w m id); auto.
  now apply isWorkerSupported_no_self.
Qed.

(** C1, at an input where the code departs from it.  In the fallback of the
    repository's test, once both sides are ready, the [Socks] posts
    [{ elite: 313370 }], which is not an envelope; the callback registered
    on the [WorkBoots] is called with [{ data: { data: { elite: 313370 } } }],
    so its argument's [data] is the envelope, not the payload. *)
Theorem bridge_reply_wrapped_twice :
  js_in "data" elite = Some false /\
  isReady (wb bridge_ready) = true /\
  s_isReady (sk bridge_ready) = true /\
  onMessageCallback (wb bridge_ready) = Some (AppCallback 7) /\
  Socks_postMessage node_env elite VUndefined [] bridge_ready =
    (Ok tt,
     with_trace (trace bridge_ready ++
                 [ToBoots [envelope elite; VUndefined; VArr []];
                  BootsCallback 7 [envelope (envelope elite)]])
                bridge_ready) /\
  opt_data (envelope (envelope elite)) = envelope elite /\
  opt_data (envelope (envelope elite)) <> elite.
Proof.
  repeat split; try reflexivity. discriminate.
Qed.

(** The other direction of the same run keeps the round trip: the callback
    of the [Socks] receives [{ data: { elite: 313370 } }]. *)
Lemma bridge_request_wrapped_once :
  WorkBoots_postMessage node_env elite VUndefined [] bridge_ready =
    (Ok tt,
     with_trace (trace bridge_ready ++
                 [ToSocks [envelope elite; VArr []];
                  SocksCallback 1 [envelope elite]])
                bridge_ready).
Proof. reflexivity. Qed.

(** With a worker, a post made when ready hands the raw payload to the
    handle: the wrapped message is computed and not used. *)
Lemma WorkBoots_postMessage_remote env data origin transfer w h has_data :
  isReady (wb w) = true ->
  supportsWorker (wb w) = true ->
  worker (wb w) = Some h ->
  h_postMessage h = true ->
  js_in "data" data = Some has_data ->
  WorkBoots_postMessage env data origin transfer w =
  worker_postMessage env data transfer w.
Proof.
  intros Hr Hs Hw Hp Hd.
  unfold WorkBoots_postMessage, bind, get. rewrite Hr, Hd, Hs, Hw, Hp.
  reflexivity.
Qed.

(** A primitive payload makes the [WorkBoots] throw once it is ready:
    ['data' in data] is not guarded by a [typeof] test there. *)
Lemma WorkBoots_postMessage_primitive env data origin transfer w :
  isReady (wb w) = true ->
  js_in "data" data = None ->
  exists msg, WorkBoots_postMessage env data origin transfer w
              = (Throw (TypeError msg), w).
Proof.
  intros Hr Hd. unfold WorkBoots_postMessage, bind, get. rewrite Hr, Hd.
  simpl. eexists. reflexivity.
Qed.

(** C7, at an input where the code departs from it.  In the same run the
    [Socks] posts [{ data: 5 }], already an envelope; it is passed on
    unchanged by the [Socks], and the callback registered on the [WorkBoots]
    is called with [{ data: { data: 5 } }]. *)
Theorem bridge_envelope_wrapped_again :
  message_of (envelope (VNum 5)) = Ok (envelope (VNum 5)) /\
  Socks_postMessage node_env (envelope (VNum 5)) VUndefined [] bridge_ready =
    (Ok tt,
     with_trace (trace bridge_ready ++
                 [ToBoots [envelope (VNum 5); VUndefined; VArr []];
                  BootsCallback 7 [envelope (envelope (VNum 5))]])
                bridge_ready) /\
  envelope (envelope (VNum 5)) <> envelope (VNum 5).
Proof.
  repeat split; try reflexivity. discriminate.
Qed.

(** * The announcement and the application callback *)

(** C2, at an input where the code departs from it.  The factory throws,
    the application registers its callback right after construction (which
    replaces the readiness listener in the slot), the module is imported
    and calls [ready()] on its own, and the [WorkBoots] adopts it:
    [enterBoots] announces across the bridge, and the application callback
    is called with [{ data: 'socks loaded' }]. *)
Theorem sentinel_reaches_application_callback :
  onMessageCallback (wb bridge_early_callback) = Some (AppCallback 7) /\
  readyPromise (wb bridge_early_callback) = Resolved /\
  trace bridge_early_callback =
    [ToBoots [socks_loaded]; BootsCallback 7 [envelope socks_loaded]].
Proof. repeat split. Qed.

(** The same with a worker: the readiness listener is never subscribed to
    the handle, the application callback is, and the announcement of the
    mock worker is delivered to it. *)
Lemma sentinel_reaches_application_callback_remote :
  readyPromise (wb remote_early_callback) = Resolved /\
  trace remote_early_callback = [BootsCallback 7 [envelope socks_loaded]].
Proof. split; reflexivity. Qed.

(** * The queue of the [Socks] *)

(** C3, at an input where the code departs from it.  A [Socks] inside a
    Node worker thread has queued [{ n: 1 }] and [{ n: 2 }]; [ready()] posts
    the announcement while [isReady] is still unset, so it is queued behind
    them, and [parentPort.postMessage] is called with [{ n: 1 }], [{ n: 2 }]
    and only then ['socks loaded']: the queue is replayed before the
    announcement has been sent. *)
Theorem remote_ready_announces_last :
  postsBeforeReady (sk remote_two_posts) =
    [(VObj [("n", VNum 1)], VUndefined, []);
     (VObj [("n", VNum 2)], VUndefined, [])] /\
  trace remote_two_posts = [] /\
  isWorkerSupported node_env (sk remote_two_posts) = true /\
  Socks_ready node_env remote_two_posts =
    (Ok tt,
     {| wb := wb remote_two_posts;
        sk := drained (sk remote_two_posts);
        trace := [SelfPostMessage [VObj [("n", VNum 1)]; VArr []];
                  SelfPostMessage [VObj [("n", VNum 2)]; VArr []];
                  SelfPostMessage [socks_loaded; VArr []]] |}).
Proof. repeat split. Qed.

(** * Construction without a descriptor *)

Lemma WorkBoots_constructor_no_descriptor env f w0 :
  WorkBoots_constructor env None f w0 =
  (Ok tt, {| wb := set_readyPromise (Rejected no_socksFile) blank;
             sk := sk w0; trace := trace w0 |}).
Proof. reflexivity. Qed.

(** A rejected promise stays rejected, with the same error. *)
Lemma rejected_forever env ops w e :
  readyPromise (wb w) = Rejected e ->
  fst (WorkBoots_ready (run_ops env ops w)) = Ok (Rejected e).
Proof.
  intro H.
  pose proof (keeps_run_ops promise_grows promise_grows_refl
                promise_grows_trans env ops (promise_grows_do_op env) w) as G.
  unfold promise_grows, promise_le in G. rewrite H in G.
  unfold WorkBoots_ready, bind, get, ret. simpl.
  destruct G as [->|[G _]]; [reflexivity | discriminate].
Qed.

(** [terminate()] on a [WorkBoots] with neither worker nor [Socks] does
    nothing. *)
Lemma WorkBoots_terminate_unbound env w :
  supportsWorker (wb w) = false ->
  socks (wb w) = None ->
  WorkBoots_terminate env w = (Ok tt, w).
Proof.
  intros Hs Hk. unfold WorkBoots_terminate, bind, get. rewrite Hs, Hk.
  reflexivity.
Qed.

(** C5, at the input where the code departs from it.  [new WorkBoots({})]
    returns normally, [ready()] is rejected with ['no socksFile defined!'],
    [terminate()] does nothing; but [postMessage] finds [isReady] unset and
    calls the callback slot, which is empty, and throws. *)
Theorem no_descriptor_postMessage_throws :
  fst (WorkBoots_constructor node_env None FactoryThrows start) = Ok tt /\
  fst (WorkBoots_ready no_descriptor) = Ok (Rejected no_socksFile) /\
  WorkBoots_terminate node_env no_descriptor = (Ok tt, no_descriptor) /\
  WorkBoots_postMessage node_env elite VUndefined [] no_descriptor =
    (Throw not_a_function, no_descriptor).
Proof. repeat split. Qed.

(** * Posting before the [WorkBoots] is ready *)

(** With an application callback in the slot, a post made before
    [isReady] is one call of that callback with the raw arguments. *)
Lemma WorkBoots_postMessage_forwards env data origin transfer w id :
  isReady (wb w) = false ->
  onMessageCallback (wb w) = Some (AppCallback id) ->
  WorkBoots_postMessage env data origin transfer w =
  (Ok tt, add_event (BootsCallback id [data; default_origin origin;
                                       VArr transfer]) w).
Proof.
  intros Hr Hc. rewrite WorkBoots_postMessage_not_ready, Hc by exact Hr.
  reflexivity.
Qed.

(** C6, at the input where the code departs from it.  A [WorkBoots] that
    is not ready and has no callback in its slot (the one built without a
    descriptor) throws on [postMessage('ping', 'origin', [1])]: the call of
    the slot is not guarded. *)
Theorem postMessage_without_callback_throws :
  isReady (wb no_descriptor) = false /\
  onMessageCallback (wb no_descriptor) = None /\
  WorkBoots_postMessage browser_env (VStr "ping") (VStr "origin") [VNum 1]
                        no_descriptor =
    (Throw not_a_function, no_descriptor).
Proof. repeat split. Qed.

(** * Runs that include the settling of the import *)

Lemma keeps_run_steps (R : World -> World -> Prop)
  (R_refl : forall w, R w w)
  (R_trans : forall a b c, R a b -> R b c -> R a c) env steps :
  (forall s, keeps R (do_step env s)) ->
  forall w, R w (run_steps env steps w).
Proof.
  intro Hs. unfold run_steps.
  induction steps as [|s steps IH]; intro w; simpl.
  - apply R_refl.
  - eapply R_trans; [apply Hs | apply IH].
Qed.

(** The continuation of the import keeps whatever its parts keep. *)
Lemma keeps_loadSocksFile_settled (R : World -> World -> Prop)
  (R_refl : forall w, R w w)
  (R_trans : forall a b c, R a b -> R b c -> R a c) env r :
  keeps R (modify_wb (set_loading false)) ->
  (forall x, keeps R (modify_wb (set_socks x))) ->
  keeps R (modify_wb (set_boots_of_mock true)) ->
  keeps R (modify_wb (set_isReady true)) ->
  keeps R resolve ->
  keeps R (Socks_enterBoots env) ->
  keeps R (loadSocksFile_settled env r).
Proof.
  intros Hl Hs Hb Hr Hres He.
  assert (Hmock : keeps R mock_socks).
  { unfold mock_socks.
    repeat (apply (keeps_bind _ R_trans); [auto | intros _]). exact Hres. }
  unfold loadSocksFile_settled.
  apply (keeps_bind _ R_trans); [exact Hl | intros _].
  destruct r as [[|]|]; [| |exact Hmock].
  - apply (keeps_try_catch _ R_trans); [|intros _; exact Hmock].
    apply (keeps_bind _ R_trans); [apply Hs | intros _].
    apply (keeps_bind _ R_trans); [exact He | intros _].
    apply (keeps_bind _ R_trans); [exact Hr | intros _]. exact Hres.
  - apply (keeps_try_catch _ R_trans); [|intros _; exact Hmock].
    apply (keeps_bind _ R_trans); [apply Hs | intros _].
    apply (keeps_bind _ R_trans); [apply (keeps_throw _ R_refl) | intros _].
    apply (keeps_bind _ R_trans); [exact Hr | intros _]. exact Hres.
Qed.

Lemma promise_grows_do_step env s : keeps promise_grows (do_step env s).
Proof.
  destruct s as [o|r]; simpl.
  - apply promise_grows_do_op.
  - apply (keeps_loadSocksFile_settled _ promise_grows_refl promise_grows_trans).
    + promise_prim.
    + intro x. promise_prim.
    + promise_prim.
    + promise_prim.
    + unfold resolve. promise_prim.
    + exact (promise_grows_do_op env (OnSocks SEnterBoots)).
Qed.

(** The readiness promise settles at most once: over any run, calls and
    import settlements alike, a resolved promise stays resolved, a rejected
    one stays rejected with its error, and only a pending one can change,
    to resolved. *)
Theorem readyPromise_settles_once :
  forall (env : Env) (steps : list step) (w : World),
    let p := readyPromise (wb w) in
    let p' := readyPromise (wb (run_steps env steps w)) in
    match p with
    | Pending => p' = Pending \/ p' = Resolved
    | Resolved => p' = Resolved
    | Rejected e => p' = Rejected e
    end.
Proof.
  intros env steps w.
  pose proof (keeps_run_steps promise_grows promise_grows_refl
                promise_grows_trans env steps (promise_grows_do_step env) w)
    as G.
  unfold promise_grows, promise_le in G. simpl.
  destruct (readyPromise (wb w)) eqn:E; destruct G as [G|[G1 G2]];
    try discriminate; auto.
Qed.

(** * The mode chosen at construction *)

Lemma mode_fixed_refl w : mode_fixed w w.
Proof. split; reflexivity. Qed.

Lemma mode_fixed_trans a b c : mode_fixed a b -> mode_fixed b c -> mode_fixed a c.
Proof. intros [H1 H2] [H3 H4]. split; congruence. Qed.

Ltac mode_prim :=
  let w := fresh "w" in
  intro w; unfold mode_fixed, emit, add_event, modify_wb, modify_sk; simpl;
  repeat break_match; repeat split; auto.

Ltac mode_auto :=
  keeps_with mode_fixed_refl mode_fixed_trans ltac:(fail) ltac:(mode_prim).

Lemma mode_fixed_do_op env o : keeps mode_fixed (do_op env o).
Proof. destruct o as [[]|[]]; simpl; mode_auto. Qed.

Lemma mode_fixed_do_step env s : keeps mode_fixed (do_step env s).
Proof.
  destruct s as [o|r]; simpl.
  - apply mode_fixed_do_op.
  - apply (keeps_loadSocksFile_settled _ mode_fixed_refl mode_fixed_trans).
    + mode_prim.
    + intro x. mode_prim.
    + mode_prim.
    + mode_prim.
    + unfold resolve. mode_prim.
    + exact (mode_fixed_do_op env (OnSocks SEnterBoots)).
Qed.

Lemma workerless_refl w : workerless w w.
Proof. intro H. auto. Qed.

Lemma workerless_trans a b c : workerless a b -> workerless b c -> workerless a c.
Proof.
  unfold workerless. intros H1 H2 Ha.
  destruct (H1 Ha) as [Hb E1]. destruct (H2 Hb) as [Hc E2].
  split; congruence.
Qed.

Ltac workerless_prim :=
  let w := fresh "w" in
  let Hs := fresh "Hs" in
  intro w; unfold workerless, worker_events, emit, add_event, modify_wb,
    modify_sk; simpl;
  intro Hs; rewrite ?filter_app; simpl; rewrite ?app_nil_r, ?Hs;
  repeat break_match; auto.

Create HintDb workerless_db.

Ltac workerless_auto :=
  keeps_with workerless_refl workerless_trans ltac:(auto with workerless_db)
             ltac:(workerless_prim).

Lemma WorkBoots_postMessage_eq env data origin transfer w :
  WorkBoots_postMessage env data origin transfer w =
  if isReady (wb w) then
    match js_in "data" data with
    | None => (Throw (TypeError "Cannot use 'in' operator to search for 'data'"), w)
    | Some has_data =>
        let message := if has_data then data else envelope data in
        let via_socks :=
          match socks (wb w) with
          | Some r => socks_onMessageLocal r message transfer w
          | None => (Ok tt, w)
          end in
        match supportsWorker (wb w), worker (wb w) with
        | true, Some h =>
            if h_postMessage h then worker_postMessage env data transfer w
            else via_socks
        | _, _ => via_socks
        end
    end
  else
    match onMessageCallback (wb w) with
    | Some cb => call_callback cb [data; default_origin origin; VArr transfer] w
    | None => (Throw not_a_function, w)
    end.
Proof.
  unfold WorkBoots_postMessage, bind, get.
  destruct (isReady (wb w)); simpl.
  - destruct (js_in "data" data) as [b|]; [|reflexivity].
    destruct (supportsWorker (wb w)), (worker (wb w)) as [h|];
      try destruct (h_postMessage h); destruct (socks (wb w)); reflexivity.
  - destruct (onMessageCallback (wb w)); reflexivity.
Qed.

Lemma WorkBoots_terminate_eq env w :
  WorkBoots_terminate env w =
  let via_socks :=
    match socks (wb w) with
    | Some LoadedSocks => Socks_terminate w
    | _ => (Ok tt, w)
    end in
  match supportsWorker (wb w), worker (wb w) with
  | true, Some h =>
      if h_terminate h then
        if isBrowser env || isNode env
        then (Ok tt, add_event WorkerTerminate w) else (Ok tt, w)
      else via_socks
  | _, _ => via_socks
  end.
Proof.
  unfold WorkBoots_terminate, bind, get.
  destruct (supportsWorker (wb w)), (worker (wb w)) as [h|];
    try destruct (h_terminate h); try destruct (isBrowser env);
    try destruct (isNode env); destruct (socks (wb w)) as [[|]|]; reflexivity.
Qed.

Lemma workerless_WorkBoots_postMessage env data origin transfer :
  keeps workerless (WorkBoots_postMessage env data origin transfer).
Proof.
  intros w Hw.
  assert (K1 : forall cb args, keeps workerless (call_callback cb args))
    by (intros; workerless_auto).
  assert (K2 : forall r m t, keeps workerless (socks_onMessageLocal r m t))
    by (intros; workerless_auto).
  rewrite WorkBoots_postMessage_eq, Hw.
  destruct (isReady (wb w)).
  - destruct (js_in "data" data) as [b|]; [|now split].
    cbv zeta. destruct (supportsWorker (wb w));
      (destruct (socks (wb w)) as [r|]; [now apply K2 | now split]).
  - destruct (onMessageCallback (wb w)) as [cb|]; [now apply K1 | now split].
Qed.

Lemma workerless_WorkBoots_terminate env :
  keeps workerless (WorkBoots_terminate env).
Proof.
  intros w Hw.
  assert (K : keeps workerless Socks_terminate) by workerless_auto.
  rewrite WorkBoots_terminate_eq, Hw. cbv zeta.
  destruct (supportsWorker (wb w));
    (destruct (socks (wb w)) as [[|]|]; [now apply K | now split | now split]).
Qed.

#[local] Hint Resolve workerless_WorkBoots_postMessage
  workerless_WorkBoots_terminate : workerless_db.

Lemma workerless_do_op env o : keeps workerless (do_op env o).
Proof. destruct o as [[]|[]]; simpl; workerless_auto. Qed.

Lemma workerless_do_step env s : keeps workerless (do_step env s).
Proof.
  destruct s as [o|r]; simpl.
  - apply workerless_do_op.
  - apply (keeps_loadSocksFile_settled _ workerless_refl workerless_trans).
    + workerless_prim.
    + intro x. workerless_prim.
    + workerless_prim.
    + workerless_prim.
    + unfold resolve. workerless_prim.
    + exact (workerless_do_op env (OnSocks SEnterBoots)).
Qed.

(** The choice between worker and fallback is made once, in the
    constructor.  Over any run, [supportsWorker] and the presence of a
    handle stay as they are; and a [WorkBoots] without a handle never gets
    one and never makes a call on one. *)
Theorem mode_is_decided_at_construction :
  forall (env : Env) (steps : list step) (w : World),
    let w' := run_steps env steps w in
    supportsWorker (wb w') = supportsWorker (wb w) /\
    is_some (worker (wb w')) = is_some (worker (wb w)) /\
    (worker (wb w) = None ->
       worker (wb w') = None /\
       worker_events (trace w') = worker_events (trace w)).
Proof.
  intros env steps w w'.
  destruct (keeps_run_steps mode_fixed mode_fixed_refl mode_fixed_trans
              env steps (mode_fixed_do_step env) w) as (M1 & M2).
  pose proof (keeps_run_steps workerless workerless_refl workerless_trans
                env steps (workerless_do_step env) w) as W.
  repeat split; auto; now apply W.
Qed.

Lemma mode_is_decided_at_construction_witness :
  let w' := run_steps node_env
              [Call (OnBoots (BPostMessage elite VUndefined []));
               Call (OnBoots BTerminate)] bridge_ready in
  worker (wb w') = None /\
  worker_events (trace w') = worker_events (trace bridge_ready).
Proof.
  destruct (mode_is_decided_at_construction node_env
              [Call (OnBoots (BPostMessage elite VUndefined []));
               Call (OnBoots BTerminate)] bridge_ready) as (_ & _ & H).
  exact (H eq_refl).
Defined.

(** * Who writes what *)

Lemma socks_untouched_refl w : socks_untouched w w.
Proof. reflexivity. Qed.

Lemma socks_untouched_trans a b c :
  socks_untouched a b -> socks_untouched b c -> socks_untouched a c.
Proof. unfold socks_untouched. congruence. Qed.

Ltac untouched_prim :=
  let w := fresh "w" in
  intro w; unfold socks_untouched, emit, add_event, modify_wb; simpl;
  repeat break_match; auto.

Ltac untouched_auto :=
  keeps_with socks_untouched_refl socks_untouched_trans ltac:(fail)
             ltac:(untouched_prim).

Lemma socks_untouched_do_boots_op env o :
  keeps socks_untouched (do_boots_op env o).
Proof. destruct o; simpl; untouched_auto. Qed.

(** Each object writes its own fields only.  No method of the [WorkBoots]
    changes any field of the [Socks], even when it calls into it across the
    bridge; a method of the [Socks] changes nothing of the [WorkBoots] but
    what the callback it reaches does: settling the promise and appending
    to [receivedBeforeReady]. *)
Theorem each_side_writes_its_own_fields :
  forall (env : Env) (w : World),
    (forall o : boots_op, sk (snd (do_boots_op env o w)) = sk w) /\
    (forall o : socks_op,
       let w' := snd (do_socks_op env o w) in
       supportsWorker (wb w') = supportsWorker (wb w) /\
       isReady (wb w') = isReady (wb w) /\
       worker (wb w') = worker (wb w) /\
       socks (wb w') = socks (wb w) /\
       onMessageCallback (wb w') = onMessageCallback (wb w) /\
       (readyPromise (wb w') = readyPromise (wb w) \/
        readyPromise (wb w) = Pending /\ readyPromise (wb w') = Resolved)).
Proof.
  intros env w. split.
  - intro o. apply socks_untouched_do_boots_op.
  - intro o. destruct (boots_frame_do_socks_op env o w)
      as (P & H1 & H2 & H3 & H4 & H5 & _).
    repeat split; auto.
Qed.

(** * The flags of the [Socks] *)

Lemma Socks_wf_loadSocksFile_settled env r w :
  Socks_wf env (sk w) ->
  Socks_wf env (sk (snd (loadSocksFile_settled env r w))).
Proof.
  intro Hwf.
  unfold loadSocksFile_settled, mock_socks, try_catch, bind, modify_wb,
    resolve, throw.
  destruct r as [[|]|]; simpl; [|exact Hwf|exact Hwf].
  match goal with
  | |- context [Socks_enterBoots env ?x] =>
      pose proof (Socks_wf_do_op env (OnSocks SEnterBoots) x Hwf) as F;
      change (do_op env (OnSocks SEnterBoots)) with (Socks_enterBoots env) in F;
      destruct (Socks_enterBoots env x) as [[[]|e] w3]
  end; exact F.
Qed.

Lemma Socks_wf_run_steps env steps :
  forall w, Socks_wf env (sk w) -> Socks_wf env (sk (run_steps env steps w)).
Proof.
  unfold run_steps. induction steps as [|s steps IH]; intros w H; simpl; auto.
  apply IH. destruct s as [o|r]; simpl.
  - now apply Socks_wf_do_op.
  - now apply Socks_wf_loadSocksFile_settled.
Qed.

(** A [Socks] that has a worker to talk to is never ready without having
    marked its announcement as sent: whatever host [new Socks(self)] was
    given and whatever run follows, [isReady] with [sentReadyMessage] unset
    only occurs where [isWorkerSupported()] is false. *)
Theorem ready_unannounced_only_without_worker :
  forall (env : Env) (h : option Host) (b : WorkBoots) (steps : list step),
    let w := run_steps env steps
               {| wb := b; sk := Socks_constructor h; trace := [] |} in
    s_isReady (sk w) && negb (sentReadyMessage (sk w))
      && isWorkerSupported env (sk w) = false.
Proof.
  intros env h b steps w.
  pose proof (Socks_wf_run_steps env steps
                {| wb := b; sk := Socks_constructor h; trace := [] |}
                (Socks_wf_constructor env h)) as H.
  fold w in H. unfold Socks_wf in H.
  destruct (s_isReady (sk w)); simpl; auto.
  destruct (sentReadyMessage (sk w)); simpl; auto.
Qed.

Lemma ready_stays_refl w : ready_stays w w.
Proof. intro H. auto. Qed.

Lemma ready_stays_trans a b c :
  ready_stays a b -> ready_stays b c -> ready_stays a c.
Proof.
  unfold ready_stays. intros H1 H2 Ha.
  destruct (H1 Ha) as [Hb E1]. destruct (H2 Hb) as [Hc E2].
  split; [exact Hc|]. destruct E2 as [E2|E2]; [|now right].
  rewrite E2. exact E1.
Qed.

Ltac ready_stays_prim :=
  let w := fresh "w" in
  let Hs := fresh "Hs" in
  intro w; unfold ready_stays, emit, add_event, modify_wb, modify_sk; simpl;
  intro Hs; rewrite ?Hs; repeat break_match; auto.

Create HintDb ready_stays_db.

Ltac ready_stays_auto :=
  keeps_with ready_stays_refl ready_stays_trans ltac:(auto with ready_stays_db)
             ltac:(ready_stays_prim).

Lemma ready_stays_Socks_postMessage env data origin transfer :
  keeps ready_stays (Socks_postMessage env data origin transfer).
Proof.
  intros w Hr.
  assert (K : keeps ready_stays
                (match message_of data with
                 | Ok message =>
                     if isWorkerSupported env (sk w)
                     then self_postMessage env data origin transfer
                     else boots_onMessageLocal [message; origin; VArr transfer]
                            message origin transfer
                 | Throw e => throw e
                 end)) by ready_stays_auto.
  rewrite Socks_postMessage_eq, Hr. specialize (K w Hr).
  destruct (message_of data); [|exact K].
  destruct (isWorkerSupported env (sk w)); exact K.
Qed.

#[local] Hint Resolve ready_stays_Socks_postMessage : ready_stays_db.

Lemma ready_stays_do_op env o : keeps ready_stays (do_op env o).
Proof. destruct o as [[]|[]]; simpl; ready_stays_auto. Qed.

Lemma ready_stays_do_step env s : keeps ready_stays (do_step env s).
Proof.
  destruct s as [o|r]; simpl.
  - apply ready_stays_do_op.
  - apply (keeps_loadSocksFile_settled _ ready_stays_refl ready_stays_trans).
    + ready_stays_prim.
    + intro x. ready_stays_prim.
    + ready_stays_prim.
    + ready_stays_prim.
    + unfold resolve. ready_stays_prim.
    + exact (ready_stays_do_op env (OnSocks SEnterBoots)).
Qed.

(** Once a [Socks] is ready it stays ready and its queue takes nothing
    more: over any later run the queue is what it was, or empty. *)
Theorem ready_socks_queue_takes_nothing :
  forall (env : Env) (steps : list step) (w : World),
    s_isReady (sk w) = true ->
    let w' := run_steps env steps w in
    s_isReady (sk w') = true /\
    (postsBeforeReady (sk w') = postsBeforeReady (sk w) \/
     postsBeforeReady (sk w') = []).
Proof.
  intros env steps w Hr.
  exact (keeps_run_steps ready_stays ready_stays_refl ready_stays_trans
           env steps (ready_stays_do_step env) w Hr).
Qed.

Lemma ready_socks_queue_takes_nothing_witness :
  let w' := run_steps node_env
              [Call (OnSocks (SPostMessage elite VUndefined []));
               Call (OnSocks SReady)] bridge_ready in
  s_isReady (sk w') = true /\
  (postsBeforeReady (sk w') = postsBeforeReady (sk bridge_ready) \/
   postsBeforeReady (sk w') = []).
Proof.
  exact (ready_socks_queue_takes_nothing node_env
           [Call (OnSocks (SPostMessage elite VUndefined []));
            Call (OnSocks SReady)] bridge_ready eq_refl).
Defined.

(** * Termination *)

Lemma Socks_terminate_eq w :
  Socks_terminate w = (Ok tt, with_trace (trace w ++ terminate_events (sk w)) w).
Proof.
  unfold Socks_terminate, terminate_events, bind, get, emit, add_event,
    with_trace, ret.
  destruct (terminateCallback (sk w)); simpl;
    destruct (self (sk w)) as [h|]; simpl;
    try destruct (host_terminate h); simpl;
    rewrite ?app_nil_r, <- ?app_assoc; simpl; try reflexivity;
    now destruct w.
Qed.

Lemma WorkBoots_terminate_result env w :
  WorkBoots_terminate env w =
  (Ok tt, with_trace (trace w ++ terminate_calls env w) w).
Proof.
  rewrite WorkBoots_terminate_eq. unfold terminate_calls. cbv zeta.
  assert (E : (Ok tt, w) = (Ok tt, with_trace (trace w ++ []) w)).
  { unfold with_trace. rewrite app_nil_r. now destruct w. }
  destruct (supportsWorker (wb w)), (worker (wb w)) as [h|];
    try destruct (h_terminate h); try destruct (isBrowser env);
    try destruct (isNode env); simpl;
    try destruct (socks (wb w)) as [[|]|];
    auto using Socks_terminate_eq.
Qed.

Lemma concat_repeat_comm {A} (c : list A) n :
  List.concat (repeat c n) ++ c = c ++ List.concat (repeat c n).
Proof.
  induction n as [|n IH]; simpl.
  - now rewrite app_nil_r.
  - now rewrite <- app_assoc, IH.
Qed.

Lemma terminate_iterated env w n :
  Nat.iter n (exec (WorkBoots_terminate env)) w =
  with_trace (trace w ++ List.concat (repeat (terminate_calls env w) n)) w.
Proof.
  induction n as [|n IH]; simpl.
  - unfold with_trace. rewrite app_nil_r. now destruct w.
  - rewrite IH. unfold exec. rewrite WorkBoots_terminate_result.
    unfold with_trace, terminate_calls. simpl.
    f_equal. rewrite <- app_assoc. f_equal. apply concat_repeat_comm.
Qed.

(** [terminate()] can be called any number of times: it never throws and
    changes no field of either object, and each call repeats the same calls
    (on the handle, or on the [Socks]) as the first: nothing remembers that
    the channel was terminated. *)
Theorem terminate_repeats_harmlessly :
  forall (env : Env) (w : World) (n : nat),
    let w' := Nat.iter n (exec (WorkBoots_terminate env)) w in
    fst (WorkBoots_terminate env w') = Ok tt /\
    wb w' = wb w /\
    sk w' = sk w /\
    trace w' = trace w ++ List.concat (repeat (terminate_calls env w) n).
Proof.
  intros env w n. simpl. rewrite terminate_iterated.
  rewrite WorkBoots_terminate_result. repeat split.
Qed.

(** In the fallback, [terminate()] of the [WorkBoots] is handed to the
    adopted [Socks], which runs the termination callback registered last,
    once, and nothing else. *)
Theorem bridge_terminate_runs_latest_callback :
  forall (env : Env) (w : World) (cb1 cb2 : nat),
    supportsWorker (wb w) = false ->
    socks (wb w) = Some LoadedSocks ->
    self (sk w) = None ->
    let w2 := exec (Socks_onTerminate cb2) (exec (Socks_onTerminate cb1) w) in
    WorkBoots_terminate env w2 = (Ok tt, add_event (TerminateCallback cb2) w2).
Proof.
  intros env w cb1 cb2 Hs Hk Hself. simpl.
  rewrite WorkBoots_terminate_result. unfold terminate_calls, terminate_events.
  simpl. rewrite Hs, Hk, Hself. reflexivity.
Qed.

Lemma bridge_terminate_runs_latest_callback_witness :
  let w2 := exec (Socks_onTerminate 5) (exec (Socks_onTerminate 4) bridge_ready) in
  WorkBoots_terminate node_env w2 = (Ok tt, add_event (TerminateCallback 5) w2).
Proof.
  exact (bridge_terminate_runs_latest_callback node_env bridge_ready 4 5
           eq_refl eq_refl eq_refl).
Defined.

(** * What the readiness listener keeps *)

Lemma replay_to_application id q :
  forall w,
    onMessageCallback (wb w) = Some (AppCallback id) ->
    forEach (fun m =>
               w' <- get ;;
               match onMessageCallback (wb w') with
               | Some c => call_callback c m
               | None => ret tt
               end) q w
    = (Ok tt, with_trace (trace w ++ map (BootsCallback id) q) w).
Proof.
  induction q as [|m q IH]; intros w Hc; simpl.
  - unfold ret, with_trace. rewrite app_nil_r. now destruct w.
  - unfold bind at 1. unfold bind at 1. unfold get at 1. rewrite Hc.
    cbn [call_callback]. unfold emit at 1.
    rewrite IH by exact Hc. unfold with_trace, add_event. simpl.
    now rewrite <- app_assoc.
Qed.


(** [onMessage] with an application callback: the fields it sets, and the
    replay of everything [receivedBeforeReady] holds, which is left in
    place. *)
Lemma WorkBoots_onMessage_replays env id w q :
  receivedBeforeReady (wb w) = Some q ->
  WorkBoots_onMessage env (AppCallback id) w =
  (Ok tt, {| wb := registered env (AppCallback id) (wb w); sk := sk w;
             trace := trace w ++ map (BootsCallback id) q |}).
Proof.
  intro Hq. unfold WorkBoots_onMessage.
  unfold bind at 1. unfold modify_wb at 1.
  unfold bind at 1. unfold modify_wb at 1.
  unfold bind at 1. unfold get at 1.
  cbn [wb sk trace].
  assert (E : (match worker (set_onMessageCallback (Some (AppCallback id)) (wb w)) with
               | Some h => set_worker (Some (subscribe env (AppCallback id) h))
                             (set_onMessageCallback (Some (AppCallback id)) (wb w))
               | None => set_onMessageCallback (Some (AppCallback id)) (wb w)
               end) = registered env (AppCallback id) (wb w)).
  { unfold registered. simpl. destruct (worker (wb w)); reflexivity. }
  rewrite E.
  assert (Hq' : receivedBeforeReady (registered env (AppCallback id) (wb w)) = Some q).
  { unfold registered. destruct (worker (wb w)); exact Hq. }
  rewrite Hq'. rewrite (replay_to_application id q).
  - reflexivity.
  - simpl. unfold registered. destruct (worker (wb w)); reflexivity.
Qed.

Lemma deliver_all_captured ds :
  forall w q,
    onMessageCallback (wb w) = Some VelcroAndLaces ->
    receivedBeforeReady (wb w) = Some q ->
    Forall (fun d => is_socks_loaded d = false) ds ->
    deliver_all ds w =
    (Ok tt, received_more (map (fun d => [envelope d]) ds) w).
Proof.
  unfold deliver_all.
  induction ds as [|d ds IH]; intros w q Hc Hq Hd; simpl.
  - unfold ret, received_more. rewrite Hq, app_nil_r.
    destruct w as [b s t]. simpl in *. f_equal. f_equal.
    destruct b; simpl in *. now subst.
  - inversion Hd as [|? ? Hd1 Hd2]; subst.
    unfold bind at 1. unfold WorkBoots_onMessageLocal at 1.
    unfold bind at 1. unfold get at 1. rewrite Hc.
    cbn [call_callback]. unfold velcroAndLaces.
    cbn [nth opt_data envelope lookup String.eqb Ascii.eqb Bool.eqb].
    simpl. rewrite Hd1. unfold bind at 1. unfold get at 1. rewrite Hq.
    unfold modify_wb at 1.
    rewrite (IH _ (q ++ [[envelope d]])); auto.
    unfold received_more. simpl. rewrite Hq, <- app_assoc. reflexivity.
Qed.

(** Messages that reach the [WorkBoots] across the bridge while the
    readiness listener is still in the callback slot are kept, and the
    callback the application then registers receives them all, each as
    [{ data }], in the order they came. *)
Theorem received_before_registration_is_replayed_in_order :
  forall (env : Env) (w : World) (q : list (list value)) (ds : list value)
         (id : nat),
    onMessageCallback (wb w) = Some VelcroAndLaces ->
    receivedBeforeReady (wb w) = Some q ->
    Forall (fun d => is_socks_loaded d = false) ds ->
    let w1 := snd (deliver_all ds w) in
    let r := WorkBoots_onMessage env (AppCallback id) w1 in
    fst (deliver_all ds w) = Ok tt /\
    trace w1 = trace w /\
    fst r = Ok tt /\
    trace (snd r) =
      trace w ++ map (BootsCallback id) (q ++ map (fun d => [envelope d]) ds).
Proof.
  intros env w q ds id Hc Hq Hd. simpl.
  rewrite (deliver_all_captured ds w q Hc Hq Hd). simpl.
  rewrite (WorkBoots_onMessage_replays env id _
             (q ++ map (fun d => [envelope d]) ds)).
  - repeat split.
  - simpl. now rewrite Hq.
Qed.

(** [receivedBeforeReady] is never emptied: every later registration
    replays it again, so a callback registered second receives the same
    messages the first one did. *)
Theorem every_registration_replays_again :
  forall (env : Env) (w : World) (q : list (list value)) (id1 id2 : nat),
    receivedBeforeReady (wb w) = Some q ->
    let w1 := snd (WorkBoots_onMessage env (AppCallback id1) w) in
    let r := WorkBoots_onMessage env (AppCallback id2) w1 in
    fst r = Ok tt /\
    receivedBeforeReady (wb (snd r)) = Some q /\
    trace (snd r) =
      trace w ++ map (BootsCallback id1) q ++ map (BootsCallback id2) q.
Proof.
  intros env w q id1 id2 Hq. simpl.
  rewrite (WorkBoots_onMessage_replays env id1 w q Hq). simpl.
  assert (Hq1 : receivedBeforeReady (registered env (AppCallback id1) (wb w)) = Some q).
  { unfold registered. destruct (worker (wb w)); exact Hq. }
  rewrite WorkBoots_onMessage_replays with (q := q) by exact Hq1. simpl.
  repeat split.
  - unfold registered at 1. simpl.
    destruct (worker (registered env (AppCallback id1) (wb w))); exact Hq1.
  - now rewrite <- app_assoc.
Qed.

Lemma received_before_registration_is_replayed_in_order_witness :
  trace (snd (WorkBoots_onMessage node_env (AppCallback 7)
                (snd (deliver_all [elite; VNum 2] constructed_fallback)))) =
  trace constructed_fallback ++
  map (BootsCallback 7) ([] ++ map (fun d => [envelope d]) [elite; VNum 2]).
Proof.
  assert (Hd : Forall (fun d => is_socks_loaded d = false) [elite; VNum 2])
    by (repeat constructor).
  destruct (received_before_registration_is_replayed_in_order node_env
              constructed_fallback [] [elite; VNum 2] 7 eq_refl eq_refl Hd)
    as (_ & _ & _ & H).
  exact H.
Defined.

Lemma every_registration_replays_again_witness :
  let w := snd (deliver_all [elite] constructed_fallback) in
  trace (snd (WorkBoots_onMessage node_env (AppCallback 8)
                (snd (WorkBoots_onMessage node_env (AppCallback 7) w)))) =
  trace w ++ map (BootsCallback 7) [[envelope elite]]
          ++ map (BootsCallback 8) [[envelope elite]].
Proof.
  destruct (every_registration_replays_again node_env
              (snd (deliver_all [elite] constructed_fallback))
              [[envelope elite]] 7 8 eq_refl)
    as (_ & _ & H).
  exact H.
Defined.

(** * Posting before the [WorkBoots] is ready *)

Lemma post_all_captured env ps :
  forall w q,
    isReady (wb w) = false ->
    onMessageCallback (wb w) = Some VelcroAndLaces ->
    receivedBeforeReady (wb w) = Some q ->
    Forall (fun p => is_socks_loaded (opt_data (fst (fst p))) = false) ps ->
    post_all env ps w = (Ok tt, received_more (map stored_post ps) w).
Proof.
  unfold post_all.
  induction ps as [|[[d o] t] ps IH]; intros w q Hr Hc Hq Hp; simpl.
  - unfold ret, received_more. rewrite Hq, app_nil_r.
    destruct w as [b s tr]. simpl in *. f_equal. f_equal.
    destruct b; simpl in *. now subst.
  - inversion Hp as [|? ? Hp1 Hp2]; subst. simpl in Hp1.
    unfold bind at 1. rewrite WorkBoots_postMessage_eq, Hr, Hc.
    cbn [call_callback]. unfold velcroAndLaces. cbn [nth]. rewrite Hp1.
    unfold bind at 1. unfold get at 1. rewrite Hq. unfold modify_wb at 1.
    rewrite (IH _ (q ++ [[d; default_origin o; VArr t]])); auto.
    unfold received_more. simpl. rewrite Hq, <- app_assoc. reflexivity.
Qed.

(** What the application posts before the [WorkBoots] is ready, while the
    readiness listener is still in the callback slot, is not sent anywhere:
    no call is made and the [Socks] is untouched.  The posts are kept as
    raw [[data, origin, transfer]] triples, and the callback the
    application registers next receives them back, in order. *)
Theorem posts_before_ready_come_back_to_the_sender :
  forall (env : Env) (w : World) (q : list (list value))
         (ps : list (value * value * list value)) (id : nat),
    isReady (wb w) = false ->
    onMessageCallback (wb w) = Some VelcroAndLaces ->
    receivedBeforeReady (wb w) = Some q ->
    Forall (fun p => is_socks_loaded (opt_data (fst (fst p))) = false) ps ->
    let w1 := snd (post_all env ps w) in
    let r := WorkBoots_onMessage env (AppCallback id) w1 in
    fst (post_all env ps w) = Ok tt /\
    trace w1 = trace w /\
    sk w1 = sk w /\
    readyPromise (wb w1) = readyPromise (wb w) /\
    fst r = Ok tt /\
    trace (snd r) = trace w ++ map (BootsCallback id) (q ++ map stored_post ps).
Proof.
  intros env w q ps id Hr Hc Hq Hp. simpl.
  rewrite (post_all_captured env ps w q Hr Hc Hq Hp). simpl.
  rewrite WorkBoots_onMessage_replays with (q := q ++ map stored_post ps).
  - repeat split.
  - simpl. now rewrite Hq.
Qed.

Lemma posts_before_ready_come_back_to_the_sender_witness :
  trace (snd (WorkBoots_onMessage node_env (AppCallback 7)
                (snd (post_all node_env
                        [(envelope (VNum 1), VUndefined, []);
                         (envelope (VNum 2), VUndefined, [])]
                        constructed_fallback)))) =
  trace constructed_fallback ++
  map (BootsCallback 7)
      ([] ++ map stored_post [(envelope (VNum 1), VUndefined, []);
                              (envelope (VNum 2), VUndefined, [])]).
Proof.
  assert (Hp : Forall (fun p : value * value * list value =>
                         is_socks_loaded (opt_data (fst (fst p))) = false)
                 [(envelope (VNum 1), VUndefined, []);
                  (envelope (VNum 2), VUndefined, [])])
    by (repeat constructor).
  destruct (posts_before_ready_come_back_to_the_sender node_env
              constructed_fallback []
              [(envelope (VNum 1), VUndefined, []);
               (envelope (VNum 2), VUndefined, [])] 7
              eq_refl eq_refl eq_refl Hp)
    as (_ & _ & _ & _ & _ & H).
  exact H.
Defined.

(** A post shaped like the announcement, made before the [WorkBoots] is
    ready while the readiness listener is in the slot, resolves the
    readiness promise: the listener cannot tell it from the [Socks]'s own.
    [isReady] stays unset and nothing is stored or sent. *)
Theorem post_shaped_like_announcement_resolves :
  forall (env : Env) (w : World) (data origin : value) (transfer : list value),
    isReady (wb w) = false ->
    onMessageCallback (wb w) = Some VelcroAndLaces ->
    readyPromise (wb w) = Pending ->
    is_socks_loaded (opt_data data) = true ->
    WorkBoots_postMessage env data origin transfer w =
    (Ok tt, {| wb := set_readyPromise Resolved (wb w); sk := sk w;
               trace := trace w |}).
Proof.
  intros env w data origin transfer Hr Hc Hp Hd.
  rewrite WorkBoots_postMessage_eq, Hr, Hc. cbn [call_callback].
  unfold velcroAndLaces. cbn [nth]. rewrite Hd.
  unfold resolve, modify_wb. rewrite Hp. reflexivity.
Qed.

Lemma post_shaped_like_announcement_resolves_witness :
  readyPromise (wb (snd (WorkBoots_postMessage node_env (envelope socks_loaded)
                           VUndefined [] constructed_fallback))) = Resolved.
Proof.
  rewrite (post_shaped_like_announcement_resolves node_env constructed_fallback
             (envelope socks_loaded) VUndefined [] eq_refl eq_refl eq_refl
             eq_refl).
  reflexivity.
Defined.

(** * The stand-in bound when the import fails *)



(** * Registering more than one callback *)

Lemma WorkBoots_onMessage_fields env id w :
  wb (snd (WorkBoots_onMessage env (AppCallback id) w)) =
  registered env (AppCallback id) (wb w).
Proof.
  destruct (receivedBeforeReady (wb w)) as [q|] eqn:Hq.
  - now rewrite (WorkBoots_onMessage_replays env id w q Hq).
  - unfold WorkBoots_onMessage, bind, modify_wb, get, throw. simpl.
    assert (E : receivedBeforeReady
                  (match worker (wb w) with
                   | Some h => set_worker (Some (subscribe env (AppCallback id) h))
                                 (set_onMessageCallback (Some (AppCallback id)) (wb w))
                   | None => set_onMessageCallback (Some (AppCallback id)) (wb w)
                   end) = None)
      by (destruct (worker (wb w)); exact Hq).
    rewrite E. simpl. unfold registered. reflexivity.
Qed.

(** On a Node handle with an [on] method every [onMessage] adds a listener
    and removes none: after several registrations the handle notifies all
    the callbacks, in the order they were registered, while the callback
    slot of the [WorkBoots] holds the last one only. *)
Theorem registrations_accumulate_on_an_emitter :
  forall (env : Env) (cbs : list nat) (w : World) (h : Handle),
    isBrowser env = false ->
    isNode env = true ->
    worker (wb w) = Some h ->
    h_on h = true ->
    let w' := register_all env cbs w in
    worker (wb w') =
      Some {| h_postMessage := h_postMessage h; h_on := true;
              h_terminate := h_terminate h; h_onmessage := h_onmessage h;
              h_listeners := h_listeners h ++ map AppCallback cbs |} /\
    onMessageCallback (wb w') =
      match rev cbs with
      | [] => onMessageCallback (wb w)
      | last :: _ => Some (AppCallback last)
      end.
Proof.
  intros env cbs w h Hb Hn Hw Hon. simpl.
  revert w h Hw Hon.
  induction cbs as [|cb cbs IH]; intros w h Hw Hon.
  - simpl. rewrite Hw, app_nil_r. split; [|reflexivity].
    f_equal. destruct h; simpl in *. now subst.
  - unfold register_all in *. simpl.
    set (w1 := snd (WorkBoots_onMessage env (AppCallback cb) w)).
    assert (F : wb w1 = registered env (AppCallback cb) (wb w))
      by apply WorkBoots_onMessage_fields.
    assert (Hw1 : worker (wb w1) = Some (add_h_listener (AppCallback cb) h)).
    { rewrite F. unfold registered, subscribe. rewrite Hw, Hb, Hn, Hon.
      reflexivity. }
    destruct (IH w1 _ Hw1 Hon) as (I1 & I2).
    split.
    + rewrite I1. simpl. rewrite <- app_assoc. reflexivity.
    + rewrite I2. destruct (rev cbs) as [|l tl] eqn:Er; simpl.
      * rewrite F. unfold registered. rewrite Hw. reflexivity.
      * reflexivity.
Qed.

Lemma registrations_accumulate_on_an_emitter_witness :
  worker (wb (register_all node_env [7; 8] constructed_remote)) =
  Some {| h_postMessage := h_postMessage MockNodeWorker; h_on := true;
          h_terminate := h_terminate MockNodeWorker;
          h_onmessage := h_onmessage MockNodeWorker;
          h_listeners := h_listeners MockNodeWorker ++ map AppCallback [7; 8] |}.
Proof.
  destruct (registrations_accumulate_on_an_emitter node_env [7; 8]
              constructed_remote MockNodeWorker eq_refl eq_refl eq_refl eq_refl)
    as (H & _).
  exact H.
Defined.

(** * Edge cases of the constructor *)





(** * What the handle and the host are called with *)



(** On a page, the [Socks] filters the arguments of [self.postMessage] by
    truthiness: a falsy payload (0, the empty string, [false],
    [undefined]) is not among them, and a truthy origin takes its place as
    first argument. *)
Theorem page_post_loses_a_falsy_payload :
  forall (env : Env) (w : World) (data origin : value)
         (transfer : list value) (m : value),
    isBrowser env = true ->
    s_isReady (sk w) = true ->
    isWorkerSupported env (sk w) = true ->
    message_of data = Ok m ->
    truthy data = false ->
    exists args,
      Socks_postMessage env data origin transfer w =
        (Ok tt, add_event (SelfPostMessage args) w) /\
      ~ In data args /\
      (truthy origin = true -> hd_error args = Some origin).
Proof.
  intros env w data origin transfer m Hb Hr Hs Hm Ht.
  exists (filter truthy [data; origin; transfer_or_undefined transfer]).
  split; [|split].
  - rewrite (Socks_postMessage_remote env data origin transfer w m Hr Hs Hm).
    unfold self_call. now rewrite Hb.
  - intro Hin. apply filter_In in Hin. destruct Hin as [_ Hin]. congruence.
  - intro Ho. simpl. rewrite Ht, Ho. reflexivity.
Qed.

Lemma page_post_loses_a_falsy_payload_witness :
  exists args,
    Socks_postMessage browser_env (VNum 0) (VStr "origin") [] page_socks_ready =
      (Ok tt, add_event (SelfPostMessage args) page_socks_ready) /\
    ~ In (VNum 0) args /\
    hd_error args = Some (VStr "origin").
Proof.
  destruct (page_post_loses_a_falsy_payload browser_env page_socks_ready
              (VNum 0) (VStr "origin") [] (envelope (VNum 0))
              eq_refl eq_refl eq_refl eq_refl eq_refl)
    as (args & H1 & H2 & H3).
  exists args. exact (conj H1 (conj H2 (H3 eq_refl))).
Defined.

(** * Adoption, continued *)



(** * From the [WorkBoots] to the [Socks] across the bridge *)




(** * Between [ready()] and adoption *)

(** Outside a worker, [ready()] called before adoption sets [isReady]
    although nobody is bound; a post made before the [WorkBoots] adopts the
    [Socks] then finds [this.boots] undefined and throws, and the message
    is neither sent nor queued. *)
Theorem post_between_ready_and_adoption_throws :
  forall (env : Env) (w : World) (data origin : value)
         (transfer : list value) (m : value),
    isWorkerSupported env (sk w) = false ->
    boots (sk w) = false ->
    sentReadyMessage (sk w) = false ->
    message_of data = Ok m ->
    let w1 := snd (Socks_ready env w) in
    fst (Socks_ready env w) = Ok tt /\
    postsBeforeReady (sk w1) = postsBeforeReady (sk w) /\
    exists msg,
      Socks_postMessage env data origin transfer w1 = (Throw (TypeError msg), w1).
Proof.
  intros env w data origin transfer m Hs Hb Hn Hm. simpl.
  rewrite (Socks_ready_unadopted env w Hs Hb Hn). simpl.
  repeat split. eexists.
  rewrite Socks_postMessage_eq. simpl. rewrite Hm.
  unfold isWorkerSupported in *. simpl. rewrite Hs.
  unfold boots_onMessageLocal, bind, get, throw. simpl. rewrite Hb.
  reflexivity.
Qed.

Lemma post_between_ready_and_adoption_throws_witness :
  exists msg,
    Socks_postMessage node_env elite VUndefined []
      (snd (Socks_ready node_env fallback_with_callback)) =
    (Throw (TypeError msg), snd (Socks_ready node_env fallback_with_callback)).
Proof.
  destruct (post_between_ready_and_adoption_throws node_env
              fallback_with_callback elite VUndefined [] (envelope elite)
              eq_refl eq_refl eq_refl eq_refl) as (_ & _ & H).
  exact H.
Defined.





(** * The mock workers *)

Lemma Mocks_callbacks_set event l m :
  Mocks.callbacks event (Mocks.set_callbacks event l m) = l.
Proof.
  unfold Mocks.callbacks, Mocks.set_callbacks. simpl.
  now rewrite String.eqb_refl.
Qed.

Lemma Mocks_callbacks_set_other event event' l m :
  event' <> event ->
  Mocks.callbacks event' (Mocks.set_callbacks event l m) = Mocks.callbacks event' m.
Proof.
  intro H. unfold Mocks.callbacks, Mocks.set_callbacks. simpl.
  destruct (String.eqb_spec event' event); [contradiction | reflexivity].
Qed.

Lemma Mocks_on_all event cbs :
  forall m,
    let m' := fold_left (fun m cb => Mocks.on event cb m) cbs m in
    Mocks.callbacks event m' = Mocks.callbacks event m ++ cbs /\
    Mocks.timers m' = Mocks.timers m /\
    Mocks.terminated m' = Mocks.terminated m.
Proof.
  induction cbs as [|cb cbs IH]; intro m; cbv zeta; cbn [fold_left].
  - now rewrite app_nil_r.
  - destruct (IH (Mocks.on event cb m)) as (I1 & I2 & I3).
    rewrite I1, I2, I3. unfold Mocks.on.
    rewrite Mocks_callbacks_set, <- app_assoc. repeat split.
Qed.

Lemma Mocks_post_all ds :
  forall m,
    Mocks.terminated m = false ->
    let m' := fold_left (fun m d => Mocks.postMessage d m) ds m in
    Mocks.listeners m' = Mocks.listeners m /\
    Mocks.terminated m' = false /\
    Mocks.timers m' =
      Mocks.timers m ++ map (fun d => ("message", Mocks.echo d)) ds.
Proof.
  induction ds as [|d ds IH]; intros m Ht; cbv zeta; cbn [fold_left map].
  - now rewrite app_nil_r.
  - set (m1 := {| Mocks.listeners := Mocks.listeners m;
                   Mocks.terminated := false;
                   Mocks.timers := Mocks.timers m ++ [("message", Mocks.echo d)] |}).
    assert (E : Mocks.postMessage d m = m1)
      by (unfold Mocks.postMessage; now rewrite Ht).
    rewrite E. destruct (IH m1 eq_refl) as (I1 & I2 & I3).
    rewrite I1, I2, I3. unfold m1. cbn [Mocks.listeners Mocks.timers].
    rewrite <- app_assoc. repeat split.
Qed.

(** A [MockNodeWorker] with listeners registered and messages posted
    notifies, when its timers fire, every listener of the announcement
    first and then of the echo of each post, posts in the order they were
    made and, for each, listeners in the order they were registered. *)
Theorem mock_node_worker_echoes_in_order :
  forall (cbs : list nat) (ds : list value),
    let m := fold_left (fun m d => Mocks.postMessage d m) ds
               (fold_left (fun m cb => Mocks.on "message" cb m) cbs
                  Mocks.new_NodeWorker) in
    Mocks.fire_all m =
    flat_map (fun payload => map (fun cb => (cb, payload)) cbs)
             (envelope socks_loaded :: map Mocks.echo ds).
Proof.
  intros cbs ds. simpl.
  destruct (Mocks_on_all "message" cbs Mocks.new_NodeWorker) as (O1 & O2 & O3).
  set (m0 := fold_left (fun m cb => Mocks.on "message" cb m) cbs
               Mocks.new_NodeWorker) in *.
  destruct (Mocks_post_all ds m0 O3) as (P1 & P2 & P3).
  set (m := fold_left (fun m d => Mocks.postMessage d m) ds m0) in *.
  assert (Hc : Mocks.callbacks "message" m = cbs).
  { unfold Mocks.callbacks in *. rewrite P1. exact O1. }
  unfold Mocks.fire_all. rewrite P3, O2. simpl.
  unfold Mocks.emit at 1. rewrite Hc. f_equal.
  rewrite !flat_map_concat_map, !map_map. f_equal.
  apply map_ext. intro d. unfold Mocks.emit. simpl. now rewrite Hc.
Qed.

(** [terminate()] of a [MockNodeWorker] stops later posts and nothing
    else: posts made after it set no timer, while the timers pending when
    it was called still fire, to the same listeners. *)
Theorem mock_terminate_stops_later_posts_only :
  forall (m : Mocks.NodeWorker) (ds : list value),
    let m' := fold_left (fun m d => Mocks.postMessage d m) ds
                (Mocks.terminate m) in
    Mocks.timers m' = Mocks.timers m /\
    Mocks.fire_all m' = Mocks.fire_all m.
Proof.
  intros m ds. simpl.
  assert (E : fold_left (fun m d => Mocks.postMessage d m) ds (Mocks.terminate m)
              = Mocks.terminate m).
  { induction ds as [|d ds IH]; simpl; [reflexivity | exact IH]. }
  rewrite E. split; reflexivity.
Qed.

Lemma remove_first_count cb l :
  count_occ Nat.eq_dec (Mocks.remove_first cb l) cb
    = pred (count_occ Nat.eq_dec l cb) /\
  (forall other, other <> cb ->
     count_occ Nat.eq_dec (Mocks.remove_first cb l) other
       = count_occ Nat.eq_dec l other).
Proof.
  induction l as [|x l (IH1 & IH2)]; simpl.
  - split; auto.
  - destruct (Nat.eqb_spec x cb) as [->|Hx].
    + split.
      * destruct (Nat.eq_dec cb cb); [reflexivity | contradiction].
      * intros other Ho. destruct (Nat.eq_dec cb other); [congruence | reflexivity].
    + split.
      * simpl. destruct (Nat.eq_dec x cb); [contradiction | exact IH1].
      * intros other Ho. simpl.
        destruct (Nat.eq_dec x other); rewrite (IH2 other Ho); reflexivity.
Qed.

Lemma remove_first_app_fresh cb l :
  ~ In cb l -> Mocks.remove_first cb (l ++ [cb]) = l.
Proof.
  induction l as [|x l IH]; intro H; simpl.
  - now rewrite Nat.eqb_refl.
  - destruct (Nat.eqb_spec x cb) as [->|Hx].
    + elim H. now left.
    + f_equal. apply IH. intro Hin. apply H. now right.
Qed.

(** [removeListener] of a [MockNodeWorker] takes away one registration of
    the callback, the oldest, and leaves every other listener and every
    other event alone; a callback registered twice is still notified once
    afterwards, and registering a new callback and removing it gives back
    the listeners as they were. *)
Theorem mock_removeListener_removes_one_registration :
  forall (m : Mocks.NodeWorker) (event : string) (cb : nat),
    let m' := Mocks.removeListener event cb m in
    count_occ Nat.eq_dec (Mocks.callbacks event m') cb
      = pred (count_occ Nat.eq_dec (Mocks.callbacks event m) cb) /\
    (forall other, other <> cb ->
       count_occ Nat.eq_dec (Mocks.callbacks event m') other
         = count_occ Nat.eq_dec (Mocks.callbacks event m) other) /\
    (forall event', event' <> event ->
       Mocks.callbacks event' m' = Mocks.callbacks event' m) /\
    (~ In cb (Mocks.callbacks event m) ->
       Mocks.callbacks event (Mocks.removeListener event cb (Mocks.on event cb m))
         = Mocks.callbacks event m).
Proof.
  intros m event cb. simpl. unfold Mocks.removeListener.
  split; [|split; [|split]].
  - destruct (Mocks.listeners m event) as [l|] eqn:El.
    + rewrite Mocks_callbacks_set. unfold Mocks.callbacks. rewrite El.
      apply remove_first_count.
    + unfold Mocks.callbacks. rewrite El. reflexivity.
  - intros other Ho. destruct (Mocks.listeners m event) as [l|] eqn:El.
    + rewrite Mocks_callbacks_set. unfold Mocks.callbacks. rewrite El.
      now apply remove_first_count.
    + reflexivity.
  - intros event' He. destruct (Mocks.listeners m event) as [l|] eqn:El.
    + now apply Mocks_callbacks_set_other.
    + reflexivity.
  - intro Hn. unfold Mocks.on at 1.
    assert (E : Mocks.listeners
                  (Mocks.set_callbacks event (Mocks.callbacks event m ++ [cb]) m)
                  event = Some (Mocks.callbacks event m ++ [cb])).
    { simpl. now rewrite String.eqb_refl. }
    unfold Mocks.on. rewrite E, Mocks_callbacks_set.
    now apply remove_first_app_fresh.
Qed.

Lemma mock_removeListener_removes_one_registration_witness :
  Mocks.callbacks "message"
    (Mocks.removeListener "message" 7
       (Mocks.on "message" 7 Mocks.new_NodeWorker))
  = Mocks.callbacks "message" Mocks.new_NodeWorker.
Proof.
  destruct (mock_removeListener_removes_one_registration
              Mocks.new_NodeWorker "message" 7) as (_ & _ & _ & H).
  apply H. intros [].
Defined.

Lemma Mocks_add_all cbs :
  forall m,
    let m' := fold_left (fun m cb => Mocks.addEventListener "message" cb m) cbs m in
    Mocks.w_timers m' = Mocks.w_timers m /\
    Mocks.w_terminated m' = Mocks.w_terminated m.
Proof.
  induction cbs as [|cb cbs IH]; intro m; cbv zeta; cbn [fold_left].
  - split; reflexivity.
  - destruct (IH (Mocks.addEventListener "message" cb m)) as (I1 & I2).
    rewrite I1, I2. split; reflexivity.
Qed.

Lemma Mocks_w_post_all ds :
  forall m,
    Mocks.w_terminated m = false ->
    let m' := fold_left (fun m d => Mocks.w_postMessage d m) ds m in
    Mocks.onmessage m' = Mocks.onmessage m /\
    Mocks.w_terminated m' = false /\
    Mocks.w_timers m' = Mocks.w_timers m ++ map Mocks.echo ds.
Proof.
  induction ds as [|d ds IH]; intros m Ht; cbv zeta; cbn [fold_left map].
  - now rewrite app_nil_r.
  - set (m1 := {| Mocks.onmessage := Mocks.onmessage m;
                   Mocks.w_terminated := false;
                   Mocks.w_timers := Mocks.w_timers m ++ [Mocks.echo d] |}).
    assert (E : Mocks.w_postMessage d m = m1)
      by (unfold Mocks.w_postMessage; now rewrite Ht).
    rewrite E. destruct (IH m1 eq_refl) as (I1 & I2 & I3).
    rewrite I1, I2, I3. unfold m1. cbn [Mocks.onmessage Mocks.w_timers].
    rewrite <- app_assoc. repeat split.
Qed.

Lemma Mocks_w_post_terminated ds :
  forall m,
    Mocks.w_terminated m = true ->
    fold_left (fun m d => Mocks.w_postMessage d m) ds m = m.
Proof.
  induction ds as [|d ds IH]; intros m Ht; cbn [fold_left].
  - reflexivity.
  - unfold Mocks.w_postMessage at 2. rewrite Ht. now apply IH.
Qed.

(** A [MockWorker] has one handler: of the handlers given to
    [addEventListener] only the last is ever called.  When the timers fire
    it receives the announcement and then the echo of each post made
    before [terminate()], in order; posts made after [terminate()] are
    not echoed.  [removeEventListener] with any callback, registered or
    not, empties the slot, and then nothing is delivered. *)
Theorem mock_worker_delivers_to_last_handler :
  forall (cbs : list nat) (cb : nat) (ds ds' : list value),
    let m0 := Mocks.addEventListener "message" cb
                (fold_left (fun m c => Mocks.addEventListener "message" c m)
                   cbs Mocks.new_Worker) in
    let m := fold_left (fun m d => Mocks.w_postMessage d m) ds'
               (Mocks.w_terminate
                  (fold_left (fun m d => Mocks.w_postMessage d m) ds m0)) in
    Mocks.w_fire_all m =
      map (fun d => (cb, d)) (envelope socks_loaded :: map Mocks.echo ds) /\
    (forall other : nat,
       Mocks.w_fire_all (Mocks.removeEventListener "message" other m) = []).
Proof.
  intros cbs cb ds ds'. cbv zeta.
  split; [|intro other; reflexivity].
  rewrite Mocks_w_post_terminated by reflexivity.
  destruct (Mocks_add_all cbs Mocks.new_Worker) as (A1 & A2).
  set (m := fold_left _ cbs Mocks.new_Worker) in *.
  assert (Ht : Mocks.w_terminated (Mocks.addEventListener "message" cb m) = false)
    by (cbn; exact A2).
  destruct (Mocks_w_post_all ds _ Ht) as (P1 & P2 & P3).
  unfold Mocks.w_fire_all, Mocks.w_terminate. cbn [Mocks.onmessage Mocks.w_timers].
  rewrite P1, P3. cbn [Mocks.addEventListener String.eqb Ascii.eqb Bool.eqb
                        Mocks.onmessage Mocks.w_timers].
  simpl. rewrite A1. reflexivity.
Qed.
